(** * stork: pkg/k8sutils

    A shallow embedding of [pkg/k8sutils/k8sutils.go] and the properties of
    its helpers: the group-snapshot PVC resolver, the CRD readiness waiters
    (v1beta1 and v1), the CRD registrar and the image-registry lookup.

    Go values are modelled as follows.
    - [string] is [string] (a sequence of bytes); the string-typed API enums
      ([PersistentVolumeClaimPhase], [ConditionStatus], ...) are strings too,
      compared with [String.eqb] where Go writes [==] or [switch].
    - [error] is [option error]: [None] is Go's [nil].
    - A slice is a [list]; a slice whose nil-ness the code inspects is an
      [option (list _)], [None] being the nil slice.
    - [map[string]string] is [gmap string string].
    - [time.Duration] is a [Z] counting nanoseconds.
    - Indexing a slice out of range panics: [go A] is a value or a panic.
    - The cluster clients ([core.Instance()], [apps.Instance()],
      [apiextensions.Instance()], the CRD clientset) are external
      collaborators: they are Section variables, so every theorem holds for
      whatever the cluster answers. *)

From Stdlib Require Import ZArith Ascii.
From stdpp Require Import base option list strings gmap.

Open Scope string_scope.
Open Scope list_scope.

(** ** Go errors, panics and strings *)

(** The two kinds of error value this package handles: an error handed back
    by a cluster client, and an error built with [fmt.Errorf] (or taken from
    the [wait] package), which is its message. *)
Inductive error : Type :=
  | StatusError (reason : string) (message : string)
  | errorString (s : string).

#[global] Instance error_eq_dec : EqDecision error.
Proof. solve_decision. Defined.

(** [fmt.Errorf], the format already expanded. *)
Definition Errorf (s : string) : option error := Some (errorString s).

(** A Go computation that can panic. *)
Inductive go (A : Type) : Type :=
  | ret (a : A)
  | panic (msg : string).
Arguments ret {A} a.
Arguments panic {A} msg.

#[global] Instance go_ret : MRet go := fun A a => ret a.

#[global] Instance go_bind : MBind go := fun A B k m =>
  match m with
  | ret a => k a
  | panic msg => panic msg
  end.

(** [s[i]]. *)
Definition index {A : Type} (s : list A) (i : nat) : go A :=
  match s !! i with
  | Some a => ret a
  | None => panic "index out of range"
  end.

(** [strings.Split(s, sep)] for a separator of one byte (the package only
    splits on ["/"]): the fields between the separators, an empty field at
    each end where the string starts or ends with one. *)
Fixpoint Split (s : string) (sep : ascii) : list string :=
  match s with
  | EmptyString => [""]
  | String c s' =>
      if Ascii.eqb c sep then "" :: Split s' sep
      else match Split s' sep with
           | field :: fields => String c field :: fields
           | [] => [String c ""]
           end
  end.

(** [strings.Join(elems, sep)], for a separator of one byte. *)
Fixpoint Join (elems : list string) (sep : ascii) : string :=
  match elems with
  | [] => ""
  | [elem] => elem
  | elem :: rest => elem +:+ String sep (Join rest sep)
  end.

(** The byte [c] occurs in [s]. *)
Fixpoint Contains (s : string) (c : ascii) : bool :=
  match s with
  | EmptyString => false
  | String c' s' => Ascii.eqb c' c || Contains s' c
  end.

(** ** time *)

Module time.
Definition Duration := Z.
Definition Nanosecond : Duration := 1%Z.
Definition Microsecond : Duration := (1000 * Nanosecond)%Z.
Definition Millisecond : Duration := (1000 * Microsecond)%Z.
Definition Second : Duration := (1000 * Millisecond)%Z.
Definition Minute : Duration := (60 * Second)%Z.
End time.

(** ** k8s.io/api/core/v1 *)

Module v1.

Definition PersistentVolumeClaimPhase := string.
Definition ClaimPending : PersistentVolumeClaimPhase := "Pending".
Definition ClaimBound : PersistentVolumeClaimPhase := "Bound".
Definition ClaimLost : PersistentVolumeClaimPhase := "Lost".

Module PersistentVolumeClaimStatus.
Record t := { Phase : PersistentVolumeClaimPhase }.
End PersistentVolumeClaimStatus.

Module PersistentVolumeClaimSpec.
Record t := { VolumeName : string }.
End PersistentVolumeClaimSpec.

Module PersistentVolumeClaim.
Record t := {
  Namespace : string;
  Name : string;
  Spec : PersistentVolumeClaimSpec.t;
  Status : PersistentVolumeClaimStatus.t
}.
End PersistentVolumeClaim.

Module PersistentVolumeClaimList.
Record t := { Items : list PersistentVolumeClaim.t }.
End PersistentVolumeClaimList.

Module Container.
Record t := { Name : string; Image : string }.
End Container.

Module LocalObjectReference.
Record t := { Name : string }.
End LocalObjectReference.

Module PodSpec.
Record t := {
  Containers : list Container.t;
  ImagePullSecrets : option (list LocalObjectReference.t)
}.
End PodSpec.

Module PodTemplateSpec.
Record t := { Spec : PodSpec.t }.
End PodTemplateSpec.

Module Pod.
Record t := { Namespace : string; Name : string }.
End Pod.

Module PodList.
Record t := { Items : list Pod.t }.
End PodList.

End v1.

(** ** k8s.io/api/apps/v1 *)

Module appsv1.

Module DeploymentSpec.
Record t := { Template : v1.PodTemplateSpec.t }.
End DeploymentSpec.

Module Deployment.
Record t := { Spec : DeploymentSpec.t }.
End Deployment.

End appsv1.

(** ** k8s.io/apimachinery/pkg/apis/meta/v1 *)

Module metav1.
Module ObjectMeta.
Record t := { Name : string }.
End ObjectMeta.
End metav1.

(** ** apiextensions v1beta1: what the v1beta1 waiter reads *)

Module apiextensionsv1beta1.

Definition CustomResourceDefinitionConditionType := string.
Definition Established : CustomResourceDefinitionConditionType := "Established".
Definition NamesAccepted : CustomResourceDefinitionConditionType := "NamesAccepted".

Definition ConditionStatus := string.
Definition ConditionTrue : ConditionStatus := "True".
Definition ConditionFalse : ConditionStatus := "False".
Definition ConditionUnknown : ConditionStatus := "Unknown".

Definition ResourceScope := string.
Definition ClusterScoped : ResourceScope := "Cluster".
Definition NamespaceScoped : ResourceScope := "Namespaced".

Module CustomResourceDefinitionCondition.
Record t := {
  Type_ : CustomResourceDefinitionConditionType;
  Status : ConditionStatus;
  Reason : string;
  Message : string
}.
End CustomResourceDefinitionCondition.

(** The two conditions that end a wait: Established reported true, and
    NamesAccepted reported false. *)
Definition isEstablished (c : CustomResourceDefinitionCondition.t) : Prop :=
  CustomResourceDefinitionCondition.Type_ c = Established
  /\ CustomResourceDefinitionCondition.Status c = ConditionTrue.

Definition isNameConflict (c : CustomResourceDefinitionCondition.t) : Prop :=
  CustomResourceDefinitionCondition.Type_ c = NamesAccepted
  /\ CustomResourceDefinitionCondition.Status c = ConditionFalse.

Module CustomResourceDefinitionStatus.
Record t := { Conditions : list CustomResourceDefinitionCondition.t }.
End CustomResourceDefinitionStatus.

Module CustomResourceDefinition.
Record t := {
  ObjectMeta : metav1.ObjectMeta.t;
  Status : CustomResourceDefinitionStatus.t
}.
End CustomResourceDefinition.

End apiextensionsv1beta1.

(** ** apiextensions v1: what the v1 waiter reads and the registrar builds *)

Module apiextensionsv1.

Definition CustomResourceDefinitionConditionType := string.
Definition Established : CustomResourceDefinitionConditionType := "Established".
Definition NamesAccepted : CustomResourceDefinitionConditionType := "NamesAccepted".

Definition ConditionStatus := string.
Definition ConditionTrue : ConditionStatus := "True".
Definition ConditionFalse : ConditionStatus := "False".
Definition ConditionUnknown : ConditionStatus := "Unknown".

Definition ResourceScope := string.
Definition ClusterScoped : ResourceScope := "Cluster".
Definition NamespaceScoped : ResourceScope := "Namespaced".

Module CustomResourceDefinitionCondition.
Record t := {
  Type_ : CustomResourceDefinitionConditionType;
  Status : ConditionStatus;
  Reason : string;
  Message : string
}.
End CustomResourceDefinitionCondition.

(** The two conditions that end a wait: Established reported true, and
    NamesAccepted reported false. *)
Definition isEstablished (c : CustomResourceDefinitionCondition.t) : Prop :=
  CustomResourceDefinitionCondition.Type_ c = Established
  /\ CustomResourceDefinitionCondition.Status c = ConditionTrue.

Definition isNameConflict (c : CustomResourceDefinitionCondition.t) : Prop :=
  CustomResourceDefinitionCondition.Type_ c = NamesAccepted
  /\ CustomResourceDefinitionCondition.Status c = ConditionFalse.

Module CustomResourceDefinitionStatus.
Record t := { Conditions : list CustomResourceDefinitionCondition.t }.
End CustomResourceDefinitionStatus.

  (** Of [JSONSchemaProps] only the field the registrar sets; a pointer is
      an [option]. *)
Module JSONSchemaProps.
Record t := { XPreserveUnknownFields : option bool }.
End JSONSchemaProps.

Module CustomResourceValidation.
Record t := { OpenAPIV3Schema : option JSONSchemaProps.t }.
End CustomResourceValidation.

Module CustomResourceDefinitionVersion.
Record t := {
  Name : string;
  Served : bool;
  Storage : bool;
  Schema : option CustomResourceValidation.t
}.
End CustomResourceDefinitionVersion.

Module CustomResourceDefinitionNames.
Record t := {
  Plural : string;
  Singular : string;
  ShortNames : list string;
  Kind : string
}.
End CustomResourceDefinitionNames.

Module CustomResourceDefinitionSpec.
Record t := {
  Group : string;
  Names : CustomResourceDefinitionNames.t;
  Scope : ResourceScope;
  Versions : list CustomResourceDefinitionVersion.t
}.
End CustomResourceDefinitionSpec.

Module CustomResourceDefinition.
Record t := {
  ObjectMeta : metav1.ObjectMeta.t;
  Spec : CustomResourceDefinitionSpec.t;
  Status : CustomResourceDefinitionStatus.t
}.
End CustomResourceDefinition.

End apiextensionsv1.

(** ** sched-ops/k8s/apiextensions: the resource descriptor *)

Module apiextensions.
Module CustomResource.
Record t := {
  Name : string;
  ShortNames : list string;
  Plural : string;
  Group : string;
  Version : string;
  Scope : apiextensionsv1beta1.ResourceScope;
  Kind : string
}.
End CustomResource.
End apiextensions.

(** ** apiextensions-apiserver clientset *)

(** The cluster changes between two fetches, so a fetch is indexed by the
    number of fetches made before it: [Get k name] is what the API server
    answers to the [k]-th [CustomResourceDefinitions().Get] of a waiter. *)
Module clientset.
Record Clientset := {
  ApiextensionsV1beta1_Get :
    nat -> string -> apiextensionsv1beta1.CustomResourceDefinition.t * option error;
  ApiextensionsV1_Get :
    nat -> string -> apiextensionsv1.CustomResourceDefinition.t * option error
}.
End clientset.

(** ** k8s.io/apimachinery/pkg/util/wait *)

Module wait.

Definition ErrWaitTimeout : error :=
    errorString "timed out waiting for the condition".

  (** [pollLoop ticks k condition]: the [k]-th call of the condition, then,
      while it reports neither done nor an error, one more call per
      remaining tick; [ErrWaitTimeout] once the ticks are used up. The
      second component counts the calls of the condition made in all. *)
Fixpoint pollLoop (ticks : nat) (k : nat)
      (condition : nat -> bool * option error) : option error * nat :=
    let '(done, err) := condition k in
    match err with
    | Some e => (Some e, S k)
    | None =>
        if done then (None, S k)
        else match ticks with
             | O => (Some ErrWaitTimeout, S k)
             | S ticks' => pollLoop ticks' (S k) condition
             end
    end.

  (** Modelled from the spec: [wait.PollImmediate] is library code that is
      not under src/. The spec has it poll "at a fixed interval up to a
      fixed timeout", the first poll at once, and "if the timeout elapses
      while still Pending, fail with a timeout error". On a logical clock
      the condition is called at once, then at the times [interval],
      [2 * interval], ... that do not exceed [timeout], and a last time
      when the timeout has elapsed, as the package calls the condition once
      more when the timeout closes its channel; [condition k] is the
      outcome of its [k]-th call. The result is the error and the number of
      calls made. *)
Definition PollImmediateCalls (interval timeout : time.Duration)
      (condition : nat -> bool * option error) : option error * nat :=
    pollLoop (S (Z.to_nat (timeout / interval))) 0 condition.

Definition PollImmediate (interval timeout : time.Duration)
      (condition : nat -> bool * option error) : option error :=
    fst (PollImmediateCalls interval timeout condition).

End wait.

(** ** Sample cluster answers

    Concrete answers of the collaborators, at which the properties below
    are exercised. *)

Module Samples.

Definition labels : gmap string string := {[ "app" := "data" ]}.

Definition pvc (name : string) (phase : v1.PersistentVolumeClaimPhase)
    (volume : string) : v1.PersistentVolumeClaim.t :=
  {| v1.PersistentVolumeClaim.Namespace := "ns1";
     v1.PersistentVolumeClaim.Name := name;
     v1.PersistentVolumeClaim.Spec :=
       {| v1.PersistentVolumeClaimSpec.VolumeName := volume |};
     v1.PersistentVolumeClaim.Status :=
       {| v1.PersistentVolumeClaimStatus.Phase := phase |} |}.

Definition pvcA := pvc "pvc-a" v1.ClaimBound "vol-a".
Definition pvcB := pvc "pvc-b" v1.ClaimBound "vol-b".
Definition pvcPending := pvc "pvc-c" v1.ClaimPending "".
Definition pvcLost := pvc "pvc-d" v1.ClaimLost "vol-d".

(** A cluster whose listing answers [items] for every selector. *)
Definition listing (items : list v1.PersistentVolumeClaim.t)
  : string -> gmap string string -> v1.PersistentVolumeClaimList.t * option error :=
  fun _ _ => ({| v1.PersistentVolumeClaimList.Items := items |}, None).

Definition volumeOf (claim : v1.PersistentVolumeClaim.t) : string * option error :=
  (v1.PersistentVolumeClaimSpec.VolumeName (v1.PersistentVolumeClaim.Spec claim), None).

Definition sprint (m : gmap string string) : string := "map[app:data]".

Definition notFoundReason (e : error) : bool :=
  match e with
  | StatusError reason _ => String.eqb reason "NotFound"
  | errorString _ => false
  end.

Definition condition (type status reason : string)
  : apiextensionsv1beta1.CustomResourceDefinitionCondition.t :=
  {| apiextensionsv1beta1.CustomResourceDefinitionCondition.Type_ := type;
     apiextensionsv1beta1.CustomResourceDefinitionCondition.Status := status;
     apiextensionsv1beta1.CustomResourceDefinitionCondition.Reason := reason;
     apiextensionsv1beta1.CustomResourceDefinitionCondition.Message := "" |}.

Definition conditionV1 (type status reason : string)
  : apiextensionsv1.CustomResourceDefinitionCondition.t :=
  {| apiextensionsv1.CustomResourceDefinitionCondition.Type_ := type;
     apiextensionsv1.CustomResourceDefinitionCondition.Status := status;
     apiextensionsv1.CustomResourceDefinitionCondition.Reason := reason;
     apiextensionsv1.CustomResourceDefinitionCondition.Message := "" |}.

Definition crd (conds : list apiextensionsv1beta1.CustomResourceDefinitionCondition.t)
  : apiextensionsv1beta1.CustomResourceDefinition.t :=
  {| apiextensionsv1beta1.CustomResourceDefinition.ObjectMeta :=
       {| metav1.ObjectMeta.Name := "rules.stork.libopenstorage.org" |};
     apiextensionsv1beta1.CustomResourceDefinition.Status :=
       {| apiextensionsv1beta1.CustomResourceDefinitionStatus.Conditions := conds |} |}.

Definition crdV1 (conds : list apiextensionsv1.CustomResourceDefinitionCondition.t)
  : apiextensionsv1.CustomResourceDefinition.t :=
  {| apiextensionsv1.CustomResourceDefinition.ObjectMeta :=
       {| metav1.ObjectMeta.Name := "rules.stork.libopenstorage.org" |};
     apiextensionsv1.CustomResourceDefinition.Spec :=
       {| apiextensionsv1.CustomResourceDefinitionSpec.Group := "stork.libopenstorage.org";
          apiextensionsv1.CustomResourceDefinitionSpec.Names :=
            {| apiextensionsv1.CustomResourceDefinitionNames.Plural := "rules";
               apiextensionsv1.CustomResourceDefinitionNames.Singular := "rule";
               apiextensionsv1.CustomResourceDefinitionNames.ShortNames := [];
               apiextensionsv1.CustomResourceDefinitionNames.Kind := "Rule" |};
          apiextensionsv1.CustomResourceDefinitionSpec.Scope :=
            apiextensionsv1.NamespaceScoped;
          apiextensionsv1.CustomResourceDefinitionSpec.Versions := [] |};
     apiextensionsv1.CustomResourceDefinition.Status :=
       {| apiextensionsv1.CustomResourceDefinitionStatus.Conditions := conds |} |}.

(** Names accepted, then established. *)
Definition established := [condition "NamesAccepted" "True" "NoConflicts";
                           condition "Established" "True" "InitialNamesAccepted"].
Definition establishedV1 := [conditionV1 "NamesAccepted" "True" "NoConflicts";
                             conditionV1 "Established" "True" "InitialNamesAccepted"].

(** A NamesAccepted condition with status False ahead of an Established
    condition with status True. *)
Definition conflictFirst := [condition "NamesAccepted" "False" "ListKindConflict";
                             condition "Established" "True" "InitialNamesAccepted"].

Definition installingV1 := [conditionV1 "Established" "False" "Installing"].

(** A client that answers every fetch with the same object. *)
Definition steady (conds : list apiextensionsv1beta1.CustomResourceDefinitionCondition.t)
    (condsV1 : list apiextensionsv1.CustomResourceDefinitionCondition.t)
  : clientset.Clientset :=
  {| clientset.ApiextensionsV1beta1_Get := fun _ _ => (crd conds, None);
     clientset.ApiextensionsV1_Get := fun _ _ => (crdV1 condsV1, None) |}.

Definition resource : apiextensions.CustomResource.t :=
  {| apiextensions.CustomResource.Name := "rule";
     apiextensions.CustomResource.ShortNames := ["rl"];
     apiextensions.CustomResource.Plural := "rules";
     apiextensions.CustomResource.Group := "stork.libopenstorage.org";
     apiextensions.CustomResource.Version := "v1alpha1";
     apiextensions.CustomResource.Scope := "Cluster";
     apiextensions.CustomResource.Kind := "Rule" |}.

Definition deployment (images : list string)
    (secrets : option (list string)) : appsv1.Deployment.t :=
  {| appsv1.Deployment.Spec :=
       {| appsv1.DeploymentSpec.Template :=
            {| v1.PodTemplateSpec.Spec :=
                 {| v1.PodSpec.Containers :=
                      map (fun image => {| v1.Container.Name := "stork";
                                           v1.Container.Image := image |}) images;
                    v1.PodSpec.ImagePullSecrets :=
                      option_map (map (fun n => {| v1.LocalObjectReference.Name := n |}))
                                 secrets |} |} |} |}.

(** A cluster holding the one deployment [d]. *)
Definition deployed (d : appsv1.Deployment.t)
  : string -> string -> appsv1.Deployment.t * option error :=
  fun _ _ => (d, None).

Definition pod (namespace name : string) : v1.Pod.t :=
  {| v1.Pod.Namespace := namespace; v1.Pod.Name := name |}.

(** A cluster whose pod listing answers [pods] for every selector. *)
Definition podListing (pods : list v1.Pod.t)
  : gmap string string -> v1.PodList.t * option error :=
  fun _ => ({| v1.PodList.Items := pods |}, None).

(** A volume lookup that fails for the PVC named [name]. *)
Definition volumeUnless (name : string) (claim : v1.PersistentVolumeClaim.t)
  : string * option error :=
  if String.eqb (v1.PersistentVolumeClaim.Name claim) name
  then ("", Some (StatusError "NotFound" "volume not found"))
  else volumeOf claim.

(** A client that finds nothing, whatever the name. *)
Definition absent : clientset.Clientset :=
  {| clientset.ApiextensionsV1beta1_Get :=
       fun _ _ => (crd [], Some (StatusError "NotFound" "not found"));
     clientset.ApiextensionsV1_Get :=
       fun _ _ => (crdV1 [], Some (StatusError "NotFound" "not found")) |}.

(** A client whose v1beta1 endpoint finds nothing twice, then reports a
    name conflict; its v1 endpoint is forbidden at the second fetch. *)
Definition late : clientset.Clientset :=
  {| clientset.ApiextensionsV1beta1_Get :=
       fun k _ => if Nat.ltb k 2
                  then (crd [], Some (StatusError "NotFound" "not found"))
                  else (crd conflictFirst, None);
     clientset.ApiextensionsV1_Get :=
       fun k _ => if Nat.ltb k 1
                  then (crdV1 installingV1, None)
                  else (crdV1 [], Some (StatusError "Forbidden" "denied")) |}.

End Samples.

(** ** pkg/k8sutils *)

Definition crdTimeout : time.Duration := (1 * time.Minute)%Z.
Definition retryInterval : time.Duration := (5 * time.Second)%Z.
Definition storkPodLabelKey : string := "name".
Definition storkPodLabelValue : string := "stork".

Section K8sUtils.

(** [core.Instance().GetPersistentVolumeClaims]. *)
Variable GetPersistentVolumeClaims :
  string -> gmap string string -> v1.PersistentVolumeClaimList.t * option error.

(** [core.Instance().GetVolumeForPersistentVolumeClaim]. *)
Variable GetVolumeForPersistentVolumeClaim :
  v1.PersistentVolumeClaim.t -> string * option error.

(** What the verb [%v] prints for a label map. *)
Variable Sprint : gmap string string -> string.

(** [errors.IsNotFound] on an error that is not nil. *)
Variable IsNotFoundReason : error -> bool.

(** [errors.IsNotFound]: nil is not a not-found error. *)
Definition IsNotFound (err : option error) : bool :=
  match err with
  | Some e => IsNotFoundReason e
  | None => false
  end.

(** [apps.Instance().GetDeployment]. *)
Variable GetDeployment : string -> string -> appsv1.Deployment.t * option error.

(** [apiextensions.Instance().RegisterCRD]: the error the API server
    answers with for a submitted object. *)
Variable RegisterCRD : apiextensionsv1.CustomResourceDefinition.t -> option error.

(** *** GetPVCsForGroupSnapshot *)

Definition noPVCsError (matchLabels : gmap string string) : option error :=
  Errorf ("found no PVCs for group snapshot with given label selectors: "
          +:+ Sprint matchLabels).

Definition pendingError (pvc : v1.PersistentVolumeClaim.t) : option error :=
  Errorf ("PVC: [" +:+ v1.PersistentVolumeClaim.Namespace pvc +:+ "] "
          +:+ v1.PersistentVolumeClaim.Name pvc +:+ " is still in "
          +:+ v1.PersistentVolumeClaimStatus.Phase (v1.PersistentVolumeClaim.Status pvc)
          +:+ " phase. Group snapshot will trigger after all PVCs are bound").

Definition isPending (pvc : v1.PersistentVolumeClaim.t) : bool :=
  String.eqb
    (v1.PersistentVolumeClaimStatus.Phase (v1.PersistentVolumeClaim.Status pvc))
    v1.ClaimPending.

(** The loop of lines 44-49: the first pending PVC ends the scan with its
    error. *)
Fixpoint checkPending (items : list v1.PersistentVolumeClaim.t) : option error :=
  match items with
  | [] => None
  | pvc :: rest => if isPending pvc then pendingError pvc else checkPending rest
  end.

Definition GetPVCsForGroupSnapshot (namespace : string)
    (matchLabels : gmap string string)
  : list v1.PersistentVolumeClaim.t * option error :=
  let '(pvcList, err) := GetPersistentVolumeClaims namespace matchLabels in
  match err with
  | Some e => ([], Some e)
  | None =>
      if Nat.eqb (length (v1.PersistentVolumeClaimList.Items pvcList)) 0
      then ([], noPVCsError matchLabels)
      else match checkPending (v1.PersistentVolumeClaimList.Items pvcList) with
           | Some e => ([], Some e)
           | None => (v1.PersistentVolumeClaimList.Items pvcList, None)
           end
  end.

(** *** GetVolumeNamesFromLabelSelector *)

(** The loop of lines 63-70, [volNames] being the slice built so far. *)
Fixpoint collectVolumes (pvcs : list v1.PersistentVolumeClaim.t)
    (volNames : list string) : list string * option error :=
  match pvcs with
  | [] => (volNames, None)
  | pvc :: rest =>
      let '(volName, err) := GetVolumeForPersistentVolumeClaim pvc in
      match err with
      | Some e => ([], Some e)
      | None => collectVolumes rest (volNames ++ [volName])
      end
  end.

Definition GetVolumeNamesFromLabelSelector (namespace : string)
    (labels : gmap string string) : list string * option error :=
  let '(pvcs, err) := GetPVCsForGroupSnapshot namespace labels in
  match err with
  | Some e => ([], Some e)
  | None => collectVolumes pvcs []
  end.

(** *** ValidateCRD (v1beta1) *)

(** The loop of lines 84-95 over [crd.Status.Conditions]. *)
Fixpoint scanConditions
    (conds : list apiextensionsv1beta1.CustomResourceDefinitionCondition.t)
  : bool * option error :=
  match conds with
  | [] => (false, None)
  | cond :: rest =>
      if String.eqb (apiextensionsv1beta1.CustomResourceDefinitionCondition.Type_ cond)
                    apiextensionsv1beta1.Established
      then
        if String.eqb (apiextensionsv1beta1.CustomResourceDefinitionCondition.Status cond)
                      apiextensionsv1beta1.ConditionTrue
        then (true, None)
        else scanConditions rest
      else if String.eqb (apiextensionsv1beta1.CustomResourceDefinitionCondition.Type_ cond)
                         apiextensionsv1beta1.NamesAccepted
      then
        if String.eqb (apiextensionsv1beta1.CustomResourceDefinitionCondition.Status cond)
                      apiextensionsv1beta1.ConditionFalse
        then (false, Errorf ("name conflict: "
                +:+ apiextensionsv1beta1.CustomResourceDefinitionCondition.Reason cond))
        else scanConditions rest
      else scanConditions rest
  end.

(** The condition function of lines 77-97, applied to what the fetch
    returned. *)
Definition ValidateCRD_condition
    (fetched : apiextensionsv1beta1.CustomResourceDefinition.t * option error)
  : bool * option error :=
  let '(crd, err) := fetched in
  if IsNotFound err then (false, None)
  else match err with
       | Some e => (false, Some e)
       | None =>
           scanConditions
             (apiextensionsv1beta1.CustomResourceDefinitionStatus.Conditions
                (apiextensionsv1beta1.CustomResourceDefinition.Status crd))
       end.

Definition ValidateCRD (client : clientset.Clientset) (crdName : string)
  : option error :=
  wait.PollImmediate retryInterval crdTimeout
    (fun k => ValidateCRD_condition
                (clientset.ApiextensionsV1beta1_Get client k crdName)).

(** *** ValidateCRDV1 *)

(** The loop of lines 109-120. *)
Fixpoint scanConditionsV1
    (conds : list apiextensionsv1.CustomResourceDefinitionCondition.t)
  : bool * option error :=
  match conds with
  | [] => (false, None)
  | cond :: rest =>
      if String.eqb (apiextensionsv1.CustomResourceDefinitionCondition.Type_ cond)
                    apiextensionsv1.Established
      then
        if String.eqb (apiextensionsv1.CustomResourceDefinitionCondition.Status cond)
                      apiextensionsv1.ConditionTrue
        then (true, None)
        else scanConditionsV1 rest
      else if String.eqb (apiextensionsv1.CustomResourceDefinitionCondition.Type_ cond)
                         apiextensionsv1.NamesAccepted
      then
        if String.eqb (apiextensionsv1.CustomResourceDefinitionCondition.Status cond)
                      apiextensionsv1.ConditionFalse
        then (false, Errorf ("name conflict: "
                +:+ apiextensionsv1.CustomResourceDefinitionCondition.Reason cond))
        else scanConditionsV1 rest
      else scanConditionsV1 rest
  end.

(** The condition function of lines 102-122. *)
Definition ValidateCRDV1_condition
    (fetched : apiextensionsv1.CustomResourceDefinition.t * option error)
  : bool * option error :=
  let '(crd, err) := fetched in
  if IsNotFound err then (false, None)
  else match err with
       | Some e => (false, Some e)
       | None =>
           scanConditionsV1
             (apiextensionsv1.CustomResourceDefinitionStatus.Conditions
                (apiextensionsv1.CustomResourceDefinition.Status crd))
       end.

Definition ValidateCRDV1 (client : clientset.Clientset) (crdName : string)
  : option error :=
  wait.PollImmediate retryInterval crdTimeout
    (fun k => ValidateCRDV1_condition
                (clientset.ApiextensionsV1_Get client k crdName)).

(** *** CreateCRD *)

(** The object literal of lines 133-158; the fields it leaves out have
    their zero value. *)
Definition buildCRD (resource : apiextensions.CustomResource.t)
  : apiextensionsv1.CustomResourceDefinition.t :=
  let scope :=
    if String.eqb (apiextensions.CustomResource.Scope resource)
                  apiextensionsv1.ClusterScoped
    then apiextensionsv1.ClusterScoped
    else apiextensionsv1.NamespaceScoped in
  let ignoreSchemaValidation := true in
  let crdName :=
    apiextensions.CustomResource.Plural resource +:+ "."
    +:+ apiextensions.CustomResource.Group resource in
  {| apiextensionsv1.CustomResourceDefinition.ObjectMeta :=
       {| metav1.ObjectMeta.Name := crdName |};
     apiextensionsv1.CustomResourceDefinition.Spec :=
       {| apiextensionsv1.CustomResourceDefinitionSpec.Group :=
            apiextensions.CustomResource.Group resource;
          apiextensionsv1.CustomResourceDefinitionSpec.Versions :=
            [ {| apiextensionsv1.CustomResourceDefinitionVersion.Name :=
                   apiextensions.CustomResource.Version resource;
                 apiextensionsv1.CustomResourceDefinitionVersion.Served := true;
                 apiextensionsv1.CustomResourceDefinitionVersion.Storage := true;
                 apiextensionsv1.CustomResourceDefinitionVersion.Schema :=
                   Some {| apiextensionsv1.CustomResourceValidation.OpenAPIV3Schema :=
                     Some {| apiextensionsv1.JSONSchemaProps.XPreserveUnknownFields :=
                               Some ignoreSchemaValidation |} |} |} ];
          apiextensionsv1.CustomResourceDefinitionSpec.Scope := scope;
          apiextensionsv1.CustomResourceDefinitionSpec.Names :=
            {| apiextensionsv1.CustomResourceDefinitionNames.Singular :=
                 apiextensions.CustomResource.Name resource;
               apiextensionsv1.CustomResourceDefinitionNames.Plural :=
                 apiextensions.CustomResource.Plural resource;
               apiextensionsv1.CustomResourceDefinitionNames.Kind :=
                 apiextensions.CustomResource.Kind resource;
               apiextensionsv1.CustomResourceDefinitionNames.ShortNames :=
                 apiextensions.CustomResource.ShortNames resource |} |};
     apiextensionsv1.CustomResourceDefinition.Status :=
       {| apiextensionsv1.CustomResourceDefinitionStatus.Conditions := [] |} |}.

(** [submitted] is the log of the objects handed to [RegisterCRD] so far;
    the call appends the object it submits. *)
Definition CreateCRD (resource : apiextensions.CustomResource.t)
    (submitted : list apiextensionsv1.CustomResourceDefinition.t)
  : option error * list apiextensionsv1.CustomResourceDefinition.t :=
  let crd := buildCRD resource in
  let err := RegisterCRD crd in
  match err with
  | Some e => (Some e, (submitted ++ [crd])%list)
  | None => (None, (submitted ++ [crd])%list)
  end.

(** *** GetImageRegistryFromDeployment *)

Definition GetImageRegistryFromDeployment (name namespace : string)
  : go (string * string * option error) :=
  let '(deploy, err) := GetDeployment name namespace in
  match err with
  | Some e => ret ("", "", Some e)
  | None =>
      let podSpec :=
        v1.PodTemplateSpec.Spec
          (appsv1.DeploymentSpec.Template (appsv1.Deployment.Spec deploy)) in
      container ← index (v1.PodSpec.Containers podSpec) 0;
      let imageFields := Split (v1.Container.Image container) "/" in
      registry ← (if Nat.eqb (length imageFields) 3
                  then index imageFields 0
                  else ret "");
      let imageSecret := v1.PodSpec.ImagePullSecrets podSpec in
      match imageSecret with
      | Some secrets =>
          secret ← index secrets 0;
          ret (registry, v1.LocalObjectReference.Name secret, None)
      | None => ret (registry, "", None)
      end
  end.

(** *** GetStorkPodNamespace *)

(** [core.Instance().ListPods]. *)
Variable ListPods : gmap string string -> v1.PodList.t * option error.

Definition GetStorkPodNamespace : go (string * option error) :=
  let ns := "" in
  let '(pods, err) := ListPods {[ storkPodLabelKey := storkPodLabelValue ]} in
  match err with
  | Some e => ret (ns, Some e)
  | None =>
      ns ← (if Nat.ltb 0 (length (v1.PodList.Items pods))
            then pod ← index (v1.PodList.Items pods) 0; ret (v1.Pod.Namespace pod)
            else ret ns);
      if Nat.eqb (String.length ns) 0
      then ret (ns, Errorf "error: stork namespace is empty")
      else ret (ns, None)
  end.

(** * Properties *)

(** ** Group-snapshot candidate resolver *)

Lemma checkPending_none (items : list v1.PersistentVolumeClaim.t) :
  Forall (fun pvc => isPending pvc = false) items ->
  checkPending items = None.
Proof.
  induction 1 as [|pvc rest Hpvc _ IH]; simpl; [done|].
  by rewrite Hpvc.
Qed.

Lemma checkPending_first (before after : list v1.PersistentVolumeClaim.t)
    (pvc : v1.PersistentVolumeClaim.t) :
  Forall (fun p => isPending p = false) before ->
  isPending pvc = true ->
  checkPending (before ++ pvc :: after) = pendingError pvc.
Proof.
  intros Hbefore Hpvc.
  induction Hbefore as [|p rest Hp _ IH]; simpl.
  - by rewrite Hpvc.
  - by rewrite Hp.
Qed.

(** A list with a pending member splits at its first pending member. *)
Lemma first_pending (items : list v1.PersistentVolumeClaim.t) :
  Exists (fun pvc => isPending pvc = true) items ->
  exists before pvc after,
    items = before ++ pvc :: after
    /\ Forall (fun p => isPending p = false) before
    /\ isPending pvc = true.
Proof.
  induction items as [|p rest IH]; intros Hex; [by inversion Hex|].
  destruct (isPending p) eqn:Hp.
  - exists [], p, rest. by repeat split.
  - inversion Hex as [? ? Hhd|? ? Htl]; subst; [congruence|].
    destruct (IH Htl) as (before & pvc & after & -> & Hbefore & Hpvc).
    exists (p :: before), pvc, after. repeat split; [|done].
    by constructor.
Qed.

Lemma isPending_spec (pvc : v1.PersistentVolumeClaim.t) :
  isPending pvc = true <->
  v1.PersistentVolumeClaimStatus.Phase (v1.PersistentVolumeClaim.Status pvc)
  = v1.ClaimPending.
Proof. unfold isPending. apply String.eqb_eq. Qed.

Lemma isPending_false (pvc : v1.PersistentVolumeClaim.t) :
  isPending pvc = false <->
  v1.PersistentVolumeClaimStatus.Phase (v1.PersistentVolumeClaim.Status pvc)
  <> v1.ClaimPending.
Proof. unfold isPending. apply String.eqb_neq. Qed.

Lemma checkPending_is_none (items : list v1.PersistentVolumeClaim.t) :
  checkPending items = None ->
  Forall (fun pvc => isPending pvc = false) items.
Proof.
  induction items as [|pvc rest IH]; simpl; [by constructor|].
  destruct (isPending pvc) eqn:Hpvc; [done|].
  intros Hrest. constructor; auto.
Qed.

(** What a successful [GetPVCsForGroupSnapshot] does guarantee: the list the
    cluster returned, not empty, none of its members pending. *)
Lemma GetPVCsForGroupSnapshot_success (namespace : string)
    (matchLabels : gmap string string) (pvcs : list v1.PersistentVolumeClaim.t) :
  GetPVCsForGroupSnapshot namespace matchLabels = (pvcs, None) ->
  pvcs = v1.PersistentVolumeClaimList.Items
           (GetPersistentVolumeClaims namespace matchLabels).1
  /\ pvcs <> []
  /\ Forall (fun pvc => isPending pvc = false) pvcs.
Proof.
  unfold GetPVCsForGroupSnapshot.
  destruct (GetPersistentVolumeClaims namespace matchLabels) as [pvcList [e|]];
    [done|]. simpl.
  destruct (v1.PersistentVolumeClaimList.Items pvcList) as [|p rest] eqn:Hitems;
    [done|].
  change (length (p :: rest) =? 0)%nat with false. cbv iota.
  destruct (checkPending (p :: rest)) eqn:Hscan; [done|].
  intros [= <-]. repeat split; [done|].
  by apply checkPending_is_none.
Qed.

Lemma collectVolumes_all (pvcs : list v1.PersistentVolumeClaim.t)
    (volNames : list string) :
  Forall (fun pvc => (GetVolumeForPersistentVolumeClaim pvc).2 = None) pvcs ->
  collectVolumes pvcs volNames
  = ((volNames ++ map (fun pvc => (GetVolumeForPersistentVolumeClaim pvc).1) pvcs)%list,
     None).
Proof.
  intros Hall. revert volNames.
  induction Hall as [|pvc rest Hpvc _ IH]; intros volNames; simpl.
  - by rewrite app_nil_r.
  - destruct (GetVolumeForPersistentVolumeClaim pvc) as [volName err].
    simpl in *. subst err. rewrite IH. by rewrite <- app_assoc.
Qed.

(** C2. When the selected PVC list is not empty, holds no pending PVC and
    every volume lookup succeeds, [GetVolumeNamesFromLabelSelector] returns
    one volume name per selected PVC in the order of the list: the [i]-th
    name is the volume resolved for the [i]-th PVC. *)
Theorem GetVolumeNamesFromLabelSelector_in_order (namespace : string)
    (labels : gmap string string) (pvcList : v1.PersistentVolumeClaimList.t) :
  GetPersistentVolumeClaims namespace labels = (pvcList, None) ->
  v1.PersistentVolumeClaimList.Items pvcList <> [] ->
  Forall (fun pvc =>
            v1.PersistentVolumeClaimStatus.Phase (v1.PersistentVolumeClaim.Status pvc)
            <> v1.ClaimPending)
         (v1.PersistentVolumeClaimList.Items pvcList) ->
  Forall (fun pvc => (GetVolumeForPersistentVolumeClaim pvc).2 = None)
         (v1.PersistentVolumeClaimList.Items pvcList) ->
  exists volNames : list string,
    GetVolumeNamesFromLabelSelector namespace labels = (volNames, None)
    /\ length volNames = length (v1.PersistentVolumeClaimList.Items pvcList)
    /\ forall (i : nat) (pvc : v1.PersistentVolumeClaim.t),
         v1.PersistentVolumeClaimList.Items pvcList !! i = Some pvc ->
         volNames !! i = Some (GetVolumeForPersistentVolumeClaim pvc).1.
Proof.
  intros Hlist Hne Hbound Hvols.
  exists (map (fun pvc => (GetVolumeForPersistentVolumeClaim pvc).1)
              (v1.PersistentVolumeClaimList.Items pvcList)).
  split; [|split].
  - unfold GetVolumeNamesFromLabelSelector, GetPVCsForGroupSnapshot.
    rewrite Hlist.
    destruct (v1.PersistentVolumeClaimList.Items pvcList) as [|p rest] eqn:Hitems;
      [done|].
    change (length (p :: rest) =? 0)%nat with false. cbv iota.
    rewrite checkPending_none.
    + by rewrite collectVolumes_all.
    + eapply Forall_impl; [exact Hbound|]. intros pvc. apply isPending_false.
  - apply length_map.
  - intros i pvc Hi. rewrite list_lookup_fmap. by rewrite Hi.
Qed.

(** C3. When the selected PVC list holds a pending PVC, both functions fail
    and return no PVC and no volume; the error names the namespace, the name
    and the phase of a pending PVC of the list (the first one in list
    order), whatever the phases of the other PVCs. *)
Theorem GetPVCsForGroupSnapshot_pending (namespace : string)
    (matchLabels : gmap string string) (pvcList : v1.PersistentVolumeClaimList.t) :
  GetPersistentVolumeClaims namespace matchLabels = (pvcList, None) ->
  Exists (fun pvc =>
            v1.PersistentVolumeClaimStatus.Phase (v1.PersistentVolumeClaim.Status pvc)
            = v1.ClaimPending)
         (v1.PersistentVolumeClaimList.Items pvcList) ->
  exists (before after : list v1.PersistentVolumeClaim.t)
         (pvc : v1.PersistentVolumeClaim.t) (failure : option error),
    v1.PersistentVolumeClaimList.Items pvcList = (before ++ pvc :: after)%list
    /\ Forall (fun p =>
                 v1.PersistentVolumeClaimStatus.Phase (v1.PersistentVolumeClaim.Status p)
                 <> v1.ClaimPending) before
    /\ v1.PersistentVolumeClaimStatus.Phase (v1.PersistentVolumeClaim.Status pvc)
       = v1.ClaimPending
    /\ failure
       = Errorf ("PVC: [" +:+ v1.PersistentVolumeClaim.Namespace pvc +:+ "] "
                 +:+ v1.PersistentVolumeClaim.Name pvc +:+ " is still in "
                 +:+ v1.PersistentVolumeClaimStatus.Phase
                      (v1.PersistentVolumeClaim.Status pvc)
                 +:+ " phase. Group snapshot will trigger after all PVCs are bound")
    /\ GetPVCsForGroupSnapshot namespace matchLabels = ([], failure)
    /\ GetVolumeNamesFromLabelSelector namespace matchLabels = ([], failure).
Proof.
  intros Hlist Hex.
  destruct (first_pending (v1.PersistentVolumeClaimList.Items pvcList))
    as (before & pvc & after & Hitems & Hbefore & Hpvc).
  { eapply Exists_impl; [exact Hex|]. intros p. apply isPending_spec. }
  exists before, after, pvc, (pendingError pvc).
  assert (Hget : GetPVCsForGroupSnapshot namespace matchLabels
                 = ([], pendingError pvc)).
  { unfold GetPVCsForGroupSnapshot. rewrite Hlist, Hitems.
    rewrite (checkPending_first _ _ _ Hbefore Hpvc).
    by destruct before. }
  repeat split; try done.
  - eapply Forall_impl; [exact Hbefore|]. intros p. apply isPending_false.
  - by apply isPending_spec.
  - unfold GetVolumeNamesFromLabelSelector. by rewrite Hget.
Qed.

(** C4. When the listing succeeds and matches no PVC, both functions return
    the "found no PVCs" error and no result list. *)
Theorem GetPVCsForGroupSnapshot_no_candidates (namespace : string)
    (matchLabels : gmap string string) (pvcList : v1.PersistentVolumeClaimList.t) :
  GetPersistentVolumeClaims namespace matchLabels = (pvcList, None) ->
  v1.PersistentVolumeClaimList.Items pvcList = [] ->
  GetPVCsForGroupSnapshot namespace matchLabels
  = ([], Errorf ("found no PVCs for group snapshot with given label selectors: "
                 +:+ Sprint matchLabels))
  /\ GetVolumeNamesFromLabelSelector namespace matchLabels
     = ([], Errorf ("found no PVCs for group snapshot with given label selectors: "
                    +:+ Sprint matchLabels)).
Proof.
  intros Hlist Hitems.
  assert (Hget : GetPVCsForGroupSnapshot namespace matchLabels
                 = ([], noPVCsError matchLabels)).
  { unfold GetPVCsForGroupSnapshot. by rewrite Hlist, Hitems. }
  split; [exact Hget|].
  unfold GetVolumeNamesFromLabelSelector. by rewrite Hget.
Qed.

(** ** CRD readiness waiters *)

(** One step of a scan falls through when the condition is neither an
    Established condition with status True nor a NamesAccepted condition
    with status False. *)
Ltac scan_step :=
  simpl;
  repeat match goal with
    | |- context [String.eqb ?a ?b] =>
        destruct (String.eqb_spec a b); simpl; try congruence; try tauto
    end.

Lemma scanConditions_skip
    (cond : apiextensionsv1beta1.CustomResourceDefinitionCondition.t)
    (rest : list apiextensionsv1beta1.CustomResourceDefinitionCondition.t) :
  ~ (apiextensionsv1beta1.CustomResourceDefinitionCondition.Type_ cond
       = apiextensionsv1beta1.Established
     /\ apiextensionsv1beta1.CustomResourceDefinitionCondition.Status cond
       = apiextensionsv1beta1.ConditionTrue) ->
  ~ (apiextensionsv1beta1.CustomResourceDefinitionCondition.Type_ cond
       = apiextensionsv1beta1.NamesAccepted
     /\ apiextensionsv1beta1.CustomResourceDefinitionCondition.Status cond
       = apiextensionsv1beta1.ConditionFalse) ->
  scanConditions (cond :: rest) = scanConditions rest.
Proof. intros Hest Hnames. scan_step. Qed.

Lemma scanConditions_established
    (cond : apiextensionsv1beta1.CustomResourceDefinitionCondition.t)
    (rest : list apiextensionsv1beta1.CustomResourceDefinitionCondition.t) :
  apiextensionsv1beta1.CustomResourceDefinitionCondition.Type_ cond
    = apiextensionsv1beta1.Established ->
  apiextensionsv1beta1.CustomResourceDefinitionCondition.Status cond
    = apiextensionsv1beta1.ConditionTrue ->
  scanConditions (cond :: rest) = (true, None).
Proof. intros Htype Hstatus. simpl. by rewrite Htype, Hstatus. Qed.

Lemma scanConditions_conflict
    (cond : apiextensionsv1beta1.CustomResourceDefinitionCondition.t)
    (rest : list apiextensionsv1beta1.CustomResourceDefinitionCondition.t) :
  apiextensionsv1beta1.CustomResourceDefinitionCondition.Type_ cond
    = apiextensionsv1beta1.NamesAccepted ->
  apiextensionsv1beta1.CustomResourceDefinitionCondition.Status cond
    = apiextensionsv1beta1.ConditionFalse ->
  scanConditions (cond :: rest)
  = (false, Errorf ("name conflict: "
       +:+ apiextensionsv1beta1.CustomResourceDefinitionCondition.Reason cond)).
Proof. intros Htype Hstatus. simpl. by rewrite Htype, Hstatus. Qed.

(** The v1 scan is the v1beta1 scan of the same (type, status, reason)
    triples. *)
Lemma scanConditionsV1_same
    (conds : list apiextensionsv1beta1.CustomResourceDefinitionCondition.t)
    (condsV1 : list apiextensionsv1.CustomResourceDefinitionCondition.t) :
  map (fun c => (apiextensionsv1beta1.CustomResourceDefinitionCondition.Type_ c,
                 apiextensionsv1beta1.CustomResourceDefinitionCondition.Status c,
                 apiextensionsv1beta1.CustomResourceDefinitionCondition.Reason c))
      conds
  = map (fun c => (apiextensionsv1.CustomResourceDefinitionCondition.Type_ c,
                   apiextensionsv1.CustomResourceDefinitionCondition.Status c,
                   apiextensionsv1.CustomResourceDefinitionCondition.Reason c))
        condsV1 ->
  scanConditions conds = scanConditionsV1 condsV1.
Proof.
  revert condsV1.
  induction conds as [|c rest IH]; intros [|c1 rest1]; simpl; try done.
  intros [= Htype Hstatus Hreason Hrest].
  rewrite Htype, Hstatus, Hreason, (IH rest1 Hrest).
  reflexivity.
Qed.

Lemma scanConditionsV1_skip
    (cond : apiextensionsv1.CustomResourceDefinitionCondition.t)
    (rest : list apiextensionsv1.CustomResourceDefinitionCondition.t) :
  ~ (apiextensionsv1.CustomResourceDefinitionCondition.Type_ cond
       = apiextensionsv1.Established
     /\ apiextensionsv1.CustomResourceDefinitionCondition.Status cond
       = apiextensionsv1.ConditionTrue) ->
  ~ (apiextensionsv1.CustomResourceDefinitionCondition.Type_ cond
       = apiextensionsv1.NamesAccepted
     /\ apiextensionsv1.CustomResourceDefinitionCondition.Status cond
       = apiextensionsv1.ConditionFalse) ->
  scanConditionsV1 (cond :: rest) = scanConditionsV1 rest.
Proof. intros Hest Hnames. scan_step. Qed.

Lemma scanConditionsV1_established
    (cond : apiextensionsv1.CustomResourceDefinitionCondition.t)
    (rest : list apiextensionsv1.CustomResourceDefinitionCondition.t) :
  apiextensionsv1.CustomResourceDefinitionCondition.Type_ cond
    = apiextensionsv1.Established ->
  apiextensionsv1.CustomResourceDefinitionCondition.Status cond
    = apiextensionsv1.ConditionTrue ->
  scanConditionsV1 (cond :: rest) = (true, None).
Proof. intros Htype Hstatus. simpl. by rewrite Htype, Hstatus. Qed.

Lemma scanConditionsV1_conflict
    (cond : apiextensionsv1.CustomResourceDefinitionCondition.t)
    (rest : list apiextensionsv1.CustomResourceDefinitionCondition.t) :
  apiextensionsv1.CustomResourceDefinitionCondition.Type_ cond
    = apiextensionsv1.NamesAccepted ->
  apiextensionsv1.CustomResourceDefinitionCondition.Status cond
    = apiextensionsv1.ConditionFalse ->
  scanConditionsV1 (cond :: rest)
  = (false, Errorf ("name conflict: "
       +:+ apiextensionsv1.CustomResourceDefinitionCondition.Reason cond)).
Proof. intros Htype Hstatus. simpl. by rewrite Htype, Hstatus. Qed.

Lemma scanConditions_first
    (before after : list apiextensionsv1beta1.CustomResourceDefinitionCondition.t)
    (cond : apiextensionsv1beta1.CustomResourceDefinitionCondition.t) :
  Forall (fun c => ~ apiextensionsv1beta1.isEstablished c
                   /\ ~ apiextensionsv1beta1.isNameConflict c) before ->
  scanConditions (before ++ cond :: after) = scanConditions (cond :: after).
Proof.
  induction 1 as [|c rest [Hest Hnames] _ IH]; [done|].
  rewrite <- IH. by apply scanConditions_skip.
Qed.

Lemma scanConditions_pending
    (conds : list apiextensionsv1beta1.CustomResourceDefinitionCondition.t) :
  Forall (fun c => ~ apiextensionsv1beta1.isEstablished c
                   /\ ~ apiextensionsv1beta1.isNameConflict c) conds ->
  scanConditions conds = (false, None).
Proof.
  induction 1 as [|c rest [Hest Hnames] _ IH]; [done|].
  rewrite <- IH. by apply scanConditions_skip.
Qed.

Lemma scanConditionsV1_first
    (before after : list apiextensionsv1.CustomResourceDefinitionCondition.t)
    (cond : apiextensionsv1.CustomResourceDefinitionCondition.t) :
  Forall (fun c => ~ apiextensionsv1.isEstablished c
                   /\ ~ apiextensionsv1.isNameConflict c) before ->
  scanConditionsV1 (before ++ cond :: after) = scanConditionsV1 (cond :: after).
Proof.
  induction 1 as [|c rest [Hest Hnames] _ IH]; [done|].
  rewrite <- IH. by apply scanConditionsV1_skip.
Qed.

Lemma scanConditionsV1_pending
    (conds : list apiextensionsv1.CustomResourceDefinitionCondition.t) :
  Forall (fun c => ~ apiextensionsv1.isEstablished c
                   /\ ~ apiextensionsv1.isNameConflict c) conds ->
  scanConditionsV1 conds = (false, None).
Proof.
  induction 1 as [|c rest [Hest Hnames] _ IH]; [done|].
  rewrite <- IH. by apply scanConditionsV1_skip.
Qed.



(** C1, as amended. One poll of either waiter: a not-found fetch leaves the
    waiter pending; any other fetch error is returned at once; otherwise the
    conditions are scanned in list order and the first one that is
    Established with status True or NamesAccepted with status False decides:
    success for the former, the error "name conflict: <reason>" with that
    condition's reason for the latter; with no such condition the waiter
    stays pending. *)
Theorem ValidateCRD_condition_first_decides
    (crd : apiextensionsv1beta1.CustomResourceDefinition.t)
    (crdV1 : apiextensionsv1.CustomResourceDefinition.t)
    (err : option error) :
  (IsNotFound err = true ->
     ValidateCRD_condition (crd, err) = (false, None)
     /\ ValidateCRDV1_condition (crdV1, err) = (false, None))
  /\ (forall e : error, err = Some e -> IsNotFound err = false ->
        ValidateCRD_condition (crd, err) = (false, Some e)
        /\ ValidateCRDV1_condition (crdV1, err) = (false, Some e))
  /\ (err = None ->
        (forall before cond after,
           apiextensionsv1beta1.CustomResourceDefinitionStatus.Conditions
             (apiextensionsv1beta1.CustomResourceDefinition.Status crd)
           = before ++ cond :: after ->
           Forall (fun c => ~ apiextensionsv1beta1.isEstablished c
                            /\ ~ apiextensionsv1beta1.isNameConflict c) before ->
           (apiextensionsv1beta1.isEstablished cond ->
              ValidateCRD_condition (crd, err) = (true, None))
           /\ (apiextensionsv1beta1.isNameConflict cond ->
                 ValidateCRD_condition (crd, err)
                 = (false, Errorf ("name conflict: "
                     +:+ apiextensionsv1beta1.CustomResourceDefinitionCondition.Reason cond))))
        /\ (Forall (fun c => ~ apiextensionsv1beta1.isEstablished c
                             /\ ~ apiextensionsv1beta1.isNameConflict c)
              (apiextensionsv1beta1.CustomResourceDefinitionStatus.Conditions
                 (apiextensionsv1beta1.CustomResourceDefinition.Status crd)) ->
            ValidateCRD_condition (crd, err) = (false, None))
        /\ (forall before cond after,
              apiextensionsv1.CustomResourceDefinitionStatus.Conditions
                (apiextensionsv1.CustomResourceDefinition.Status crdV1)
              = before ++ cond :: after ->
              Forall (fun c => ~ apiextensionsv1.isEstablished c
                               /\ ~ apiextensionsv1.isNameConflict c) before ->
              (apiextensionsv1.isEstablished cond ->
                 ValidateCRDV1_condition (crdV1, err) = (true, None))
              /\ (apiextensionsv1.isNameConflict cond ->
                    ValidateCRDV1_condition (crdV1, err)
                    = (false, Errorf ("name conflict: "
                        +:+ apiextensionsv1.CustomResourceDefinitionCondition.Reason cond))))
        /\ (Forall (fun c => ~ apiextensionsv1.isEstablished c
                             /\ ~ apiextensionsv1.isNameConflict c)
              (apiextensionsv1.CustomResourceDefinitionStatus.Conditions
                 (apiextensionsv1.CustomResourceDefinition.Status crdV1)) ->
            ValidateCRDV1_condition (crdV1, err) = (false, None))).
Proof.
  unfold ValidateCRD_condition, ValidateCRDV1_condition.
  split; [|split].
  - by intros ->.
  - intros e -> Hnf. by rewrite Hnf.
  - intros ->. simpl. split; [|split; [|split]].
    + intros before cond after Hconds Hbefore.
      rewrite Hconds, scanConditions_first by done.
      split; intros [Htype Hstatus].
      * by apply scanConditions_established.
      * by apply scanConditions_conflict.
    + apply scanConditions_pending.
    + intros before cond after Hconds Hbefore.
      rewrite Hconds, scanConditionsV1_first by done.
      split; intros [Htype Hstatus].
      * by apply scanConditionsV1_established.
      * by apply scanConditionsV1_conflict.
    + apply scanConditionsV1_pending.
Qed.

(** C6. On statuses with the same sequence of (type, status, reason)
    triples, and the same fetch error, the condition functions of the
    v1beta1 waiter and of the v1 waiter return the same outcome. *)
Theorem ValidateCRD_condition_V1_agree
    (crd : apiextensionsv1beta1.CustomResourceDefinition.t)
    (crdV1 : apiextensionsv1.CustomResourceDefinition.t)
    (err : option error) :
  map (fun c => (apiextensionsv1beta1.CustomResourceDefinitionCondition.Type_ c,
                 apiextensionsv1beta1.CustomResourceDefinitionCondition.Status c,
                 apiextensionsv1beta1.CustomResourceDefinitionCondition.Reason c))
      (apiextensionsv1beta1.CustomResourceDefinitionStatus.Conditions
         (apiextensionsv1beta1.CustomResourceDefinition.Status crd))
  = map (fun c => (apiextensionsv1.CustomResourceDefinitionCondition.Type_ c,
                   apiextensionsv1.CustomResourceDefinitionCondition.Status c,
                   apiextensionsv1.CustomResourceDefinitionCondition.Reason c))
        (apiextensionsv1.CustomResourceDefinitionStatus.Conditions
           (apiextensionsv1.CustomResourceDefinition.Status crdV1)) ->
  ValidateCRD_condition (crd, err) = ValidateCRDV1_condition (crdV1, err).
Proof.
  intros Hsame. unfold ValidateCRD_condition, ValidateCRDV1_condition.
  destruct (IsNotFound err); [done|].
  destruct err as [e|]; [done|].
  by apply scanConditionsV1_same.
Qed.

(** *** The poll loop *)

Lemma pollLoop_done (ticks k : nat) (condition : nat -> bool * option error) :
  condition k = (true, None) ->
  wait.pollLoop ticks k condition = (None, S k).
Proof. intros Hk. destruct ticks; simpl; by rewrite Hk. Qed.

Lemma pollLoop_error (ticks k : nat) (condition : nat -> bool * option error)
    (done : bool) (e : error) :
  condition k = (done, Some e) ->
  wait.pollLoop ticks k condition = (Some e, S k).
Proof. intros Hk. destruct ticks; simpl; by rewrite Hk. Qed.

Lemma pollLoop_calls (ticks k : nat) (condition : nat -> bool * option error) :
  k < (wait.pollLoop ticks k condition).2 <= S (k + ticks).
Proof.
  revert k. induction ticks as [|ticks IH]; intros k; simpl;
    destruct (condition k) as [done [e|]]; simpl; try lia;
    destruct done; simpl; try lia.
  specialize (IH (S k)). lia.
Qed.

Lemma pollLoop_timeout (ticks k : nat) (condition : nat -> bool * option error) :
  (forall j : nat, k <= j <= k + ticks -> condition j = (false, None)) ->
  wait.pollLoop ticks k condition = (Some wait.ErrWaitTimeout, S (k + ticks)).
Proof.
  revert k. induction ticks as [|ticks IH]; intros k Hpending; simpl;
    rewrite (Hpending k) by lia.
  - by rewrite Nat.add_0_r.
  - rewrite IH; [by rewrite Nat.add_succ_r|].
    intros j Hj. apply Hpending. lia.
Qed.

Lemma pollLoop_ext (ticks k : nat) (condition condition' : nat -> bool * option error) :
  (forall j : nat, condition j = condition' j) ->
  wait.pollLoop ticks k condition = wait.pollLoop ticks k condition'.
Proof.
  intros Hsame. revert k.
  induction ticks as [|ticks IH]; intros k; simpl; rewrite Hsame; [done|].
  by rewrite IH.
Qed.

(** The loop ends at the first call of the condition that is done or
    fails, provided the ticks reach it. *)
Lemma pollLoop_first (j ticks k : nat) (condition : nat -> bool * option error)
    (done : bool) (err : option error) :
  j <= ticks ->
  (forall i : nat, k <= i < k + j -> condition i = (false, None)) ->
  condition (k + j) = (done, err) ->
  done = true \/ err <> None ->
  wait.pollLoop ticks k condition = (err, S (k + j)).
Proof.
  revert ticks k. induction j as [|j IH]; intros ticks k Hticks Hpending Hlast Hends.
  - rewrite Nat.add_0_r in *. destruct err as [e|].
    + by apply pollLoop_error with done.
    + destruct Hends as [->|?]; [|done]. by apply pollLoop_done.
  - destruct ticks as [|ticks]; [lia|]. simpl.
    rewrite (Hpending k) by lia.
    rewrite (IH ticks (S k)).
    + by rewrite Nat.add_succ_r.
    + lia.
    + intros i Hi. apply Hpending. lia.
    + by rewrite Nat.add_succ_r in Hlast.
    + done.
Qed.

Lemma crd_ticks : Z.to_nat (crdTimeout / retryInterval) = 12.
Proof. reflexivity. Qed.

(** X19. The two waiters agree on clusters whose two endpoints answer
    every fetch alike. *)
Lemma ValidateCRD_V1_agree (client : clientset.Clientset) (crdName : string) :
  (forall k : nat,
     (clientset.ApiextensionsV1beta1_Get client k crdName).2
     = (clientset.ApiextensionsV1_Get client k crdName).2
     /\ map (fun c => (apiextensionsv1beta1.CustomResourceDefinitionCondition.Type_ c,
                       apiextensionsv1beta1.CustomResourceDefinitionCondition.Status c,
                       apiextensionsv1beta1.CustomResourceDefinitionCondition.Reason c))
            (apiextensionsv1beta1.CustomResourceDefinitionStatus.Conditions
               (apiextensionsv1beta1.CustomResourceDefinition.Status
                  (clientset.ApiextensionsV1beta1_Get client k crdName).1))
        = map (fun c => (apiextensionsv1.CustomResourceDefinitionCondition.Type_ c,
                         apiextensionsv1.CustomResourceDefinitionCondition.Status c,
                         apiextensionsv1.CustomResourceDefinitionCondition.Reason c))
              (apiextensionsv1.CustomResourceDefinitionStatus.Conditions
                 (apiextensionsv1.CustomResourceDefinition.Status
                    (clientset.ApiextensionsV1_Get client k crdName).1))) ->
  ValidateCRD client crdName = ValidateCRDV1 client crdName.
Proof.
  intros Hsame.
  unfold ValidateCRD, ValidateCRDV1, wait.PollImmediate, wait.PollImmediateCalls.
  f_equal. apply pollLoop_ext. intros k.
  destruct (Hsame k) as [Herr Hconds].
  destruct (clientset.ApiextensionsV1beta1_Get client k crdName) as [crd err].
  destruct (clientset.ApiextensionsV1_Get client k crdName) as [crdV1 errV1].
  simpl in *. subst errV1.
  destruct (IsNotFound err); [done|].
  destruct err as [e|]; [done|].
  by apply scanConditionsV1_same.
Qed.


(** ** CRD registrar *)

(** C8. [CreateCRD] submits one object: named <plural>.<group>, with the
    single version of the descriptor, served and stored, its schema
    preserving unknown fields; cluster-scoped exactly when the descriptor's
    scope is the cluster-wide value and namespaced for any other value; its
    names those of the descriptor. It returns what the submission
    returned. *)
Theorem CreateCRD_submits (resource : apiextensions.CustomResource.t)
    (submitted : list apiextensionsv1.CustomResourceDefinition.t) :
  exists crd : apiextensionsv1.CustomResourceDefinition.t,
    CreateCRD resource submitted = (RegisterCRD crd, submitted ++ [crd])
    /\ metav1.ObjectMeta.Name (apiextensionsv1.CustomResourceDefinition.ObjectMeta crd)
       = apiextensions.CustomResource.Plural resource +:+ "."
         +:+ apiextensions.CustomResource.Group resource
    /\ apiextensionsv1.CustomResourceDefinitionSpec.Versions
         (apiextensionsv1.CustomResourceDefinition.Spec crd)
       = [ {| apiextensionsv1.CustomResourceDefinitionVersion.Name :=
                apiextensions.CustomResource.Version resource;
              apiextensionsv1.CustomResourceDefinitionVersion.Served := true;
              apiextensionsv1.CustomResourceDefinitionVersion.Storage := true;
              apiextensionsv1.CustomResourceDefinitionVersion.Schema :=
                Some {| apiextensionsv1.CustomResourceValidation.OpenAPIV3Schema :=
                  Some {| apiextensionsv1.JSONSchemaProps.XPreserveUnknownFields :=
                            Some true |} |} |} ]
    /\ apiextensionsv1.CustomResourceDefinitionSpec.Scope
         (apiextensionsv1.CustomResourceDefinition.Spec crd)
       = (if decide (apiextensions.CustomResource.Scope resource
                     = apiextensionsv1.ClusterScoped)
          then apiextensionsv1.ClusterScoped
          else apiextensionsv1.NamespaceScoped)
    /\ apiextensionsv1.CustomResourceDefinitionSpec.Names
         (apiextensionsv1.CustomResourceDefinition.Spec crd)
       = {| apiextensionsv1.CustomResourceDefinitionNames.Singular :=
              apiextensions.CustomResource.Name resource;
            apiextensionsv1.CustomResourceDefinitionNames.Plural :=
              apiextensions.CustomResource.Plural resource;
            apiextensionsv1.CustomResourceDefinitionNames.Kind :=
              apiextensions.CustomResource.Kind resource;
            apiextensionsv1.CustomResourceDefinitionNames.ShortNames :=
              apiextensions.CustomResource.ShortNames resource |}.
Proof.
  exists (buildCRD resource). repeat split.
  - unfold CreateCRD. by destruct (RegisterCRD (buildCRD resource)).
  - simpl. case_decide as Hscope.
    + by rewrite Hscope.
    + apply String.eqb_neq in Hscope. by rewrite Hscope.
Qed.

(** ** Image registry lookup *)

(** [Split] is the splitting of the [strings] package: it gives at least
    one field, no field holds the separator, and joining the fields with the
    separator gives the string back. *)
Lemma Split_nonempty (s : string) (sep : ascii) : Split s sep <> [].
Proof.
  destruct s as [|c s]; simpl; [done|].
  destruct (Ascii.eqb c sep); [done|].
  by destruct (Split s sep).
Qed.

Lemma Split_fields (s : string) (sep : ascii) :
  Forall (fun field => Contains field sep = false) (Split s sep).
Proof.
  induction s as [|c s IH]; simpl; [by repeat constructor|].
  destruct (Ascii.eqb c sep) eqn:Hc; [by constructor|].
  destruct (Split s sep) as [|field fields].
  - repeat constructor. simpl. by rewrite Hc.
  - inversion IH as [|? ? Hfield Hfields]; subst.
    constructor; [|done]. simpl. by rewrite Hc, Hfield.
Qed.

Lemma Join_Split (s : string) (sep : ascii) : Join (Split s sep) sep = s.
Proof.
  induction s as [|c s IH]; simpl; [done|].
  pose proof (Split_nonempty s sep) as Hne.
  destruct (Ascii.eqb_spec c sep) as [->|Hc].
  - destruct (Split s sep) as [|field fields]; [done|].
    simpl in *. by rewrite IH.
  - destruct (Split s sep) as [|field [|field' fields]]; [done| |];
      simpl in *; by rewrite <- IH.
Qed.

(** What the function computes, case by case on the two slices it
    indexes. *)
Lemma GetImageRegistryFromDeployment_cases (name namespace : string)
    (deploy : appsv1.Deployment.t) :
  GetDeployment name namespace = (deploy, None) ->
  GetImageRegistryFromDeployment name namespace
  = let podSpec :=
      v1.PodTemplateSpec.Spec
        (appsv1.DeploymentSpec.Template (appsv1.Deployment.Spec deploy)) in
    match v1.PodSpec.Containers podSpec with
    | [] => panic "index out of range"
    | container :: _ =>
        let imageFields := Split (v1.Container.Image container) "/" in
        let registry :=
          match imageFields with
          | [field; _; _] => field
          | _ => ""
          end in
        match v1.PodSpec.ImagePullSecrets podSpec with
        | None => ret (registry, "", None)
        | Some [] => panic "index out of range"
        | Some (secret :: _) =>
            ret (registry, v1.LocalObjectReference.Name secret, None)
        end
    end.
Proof.
  intros Hget. unfold GetImageRegistryFromDeployment. rewrite Hget. simpl.
  destruct (v1.PodSpec.Containers _) as [|container rest]; [done|]. simpl.
  destruct (Split (v1.Container.Image container) "/")
    as [|f1 [|f2 [|f3 [|f4 fields]]]]; simpl;
    by destruct (v1.PodSpec.ImagePullSecrets _) as [[|secret secrets]|].
Qed.

(** C9, as amended. For a deployment fetched successfully that has a
    container and whose image-pull-secret slice is nil or not empty, the
    function returns, with no error: the registry is the first field of the
    first container's image split on "/" when there are exactly three
    fields and the empty string when there are one or two, and the secret
    is the name of the first image pull secret, or the empty string when
    the slice is nil. *)
Theorem GetImageRegistryFromDeployment_result (name namespace : string)
    (deploy : appsv1.Deployment.t) :
  GetDeployment name namespace = (deploy, None) ->
  let podSpec :=
    v1.PodTemplateSpec.Spec
      (appsv1.DeploymentSpec.Template (appsv1.Deployment.Spec deploy)) in
  v1.PodSpec.Containers podSpec <> [] ->
  v1.PodSpec.ImagePullSecrets podSpec <> Some [] ->
  exists (container : v1.Container.t) (registry secret : string),
    v1.PodSpec.Containers podSpec !! 0 = Some container
    /\ GetImageRegistryFromDeployment name namespace = ret (registry, secret, None)
    /\ (length (Split (v1.Container.Image container) "/") = 3 ->
          Split (v1.Container.Image container) "/" !! 0 = Some registry)
    /\ (length (Split (v1.Container.Image container) "/") = 1
        \/ length (Split (v1.Container.Image container) "/") = 2 ->
          registry = "")
    /\ (v1.PodSpec.ImagePullSecrets podSpec = None -> secret = "")
    /\ (forall (first : v1.LocalObjectReference.t)
               (others : list v1.LocalObjectReference.t),
          v1.PodSpec.ImagePullSecrets podSpec = Some (first :: others) ->
          secret = v1.LocalObjectReference.Name first).
Proof.
  intros Hget podSpec Hcontainers Hsecrets.
  rewrite (GetImageRegistryFromDeployment_cases _ _ _ Hget). fold podSpec. simpl.
  destruct (v1.PodSpec.Containers podSpec) as [|container rest]; [done|].
  exists container,
         (match Split (v1.Container.Image container) "/" with
          | [field; _; _] => field
          | _ => ""
          end),
         (match v1.PodSpec.ImagePullSecrets podSpec with
          | Some (first :: _) => v1.LocalObjectReference.Name first
          | _ => ""
          end).
  split; [done|]. split; [|split; [|split; [|split]]].
  - by destruct (v1.PodSpec.ImagePullSecrets podSpec) as [[|first secrets]|].
  - by destruct (Split (v1.Container.Image container) "/")
      as [|f1 [|f2 [|f3 [|f4 fields]]]].
  - destruct (Split (v1.Container.Image container) "/")
      as [|f1 [|f2 [|f3 [|f4 fields]]]]; simpl; try done; by intros [?|?].
  - by intros ->.
  - by intros first others ->.
Qed.

(** C10. For a deployment fetched successfully, the function panics with
    an index out of range exactly when the container list is empty or the
    image-pull-secret slice is not nil but empty: neither index is
    guarded. *)
Theorem GetImageRegistryFromDeployment_out_of_range (name namespace : string)
    (deploy : appsv1.Deployment.t) :
  GetDeployment name namespace = (deploy, None) ->
  let podSpec :=
    v1.PodTemplateSpec.Spec
      (appsv1.DeploymentSpec.Template (appsv1.Deployment.Spec deploy)) in
  GetImageRegistryFromDeployment name namespace = panic "index out of range"
  <-> v1.PodSpec.Containers podSpec = []
      \/ v1.PodSpec.ImagePullSecrets podSpec = Some [].
Proof.
  intros Hget podSpec.
  rewrite (GetImageRegistryFromDeployment_cases _ _ _ Hget). fold podSpec. simpl.
  destruct (v1.PodSpec.Containers podSpec) as [|container rest];
    [by split; [left|]|].
  destruct (v1.PodSpec.ImagePullSecrets podSpec) as [[|first secrets]|];
    split; try done; try (by right); by intros [|].
Qed.

(** * Further properties *)

(** ** Group-snapshot candidate resolver *)

(** X1. [GetPVCsForGroupSnapshot] succeeds exactly when the listing
    succeeds with a list that is not empty and holds no pending PVC; it then
    returns that list unchanged, whatever the other phases are. *)
Theorem GetPVCsForGroupSnapshot_success_iff (namespace : string)
    (matchLabels : gmap string string) (pvcs : list v1.PersistentVolumeClaim.t) :
  GetPVCsForGroupSnapshot namespace matchLabels = (pvcs, None)
  <-> exists pvcList : v1.PersistentVolumeClaimList.t,
        GetPersistentVolumeClaims namespace matchLabels = (pvcList, None)
        /\ v1.PersistentVolumeClaimList.Items pvcList = pvcs
        /\ pvcs <> []
        /\ Forall (fun pvc =>
                     v1.PersistentVolumeClaimStatus.Phase
                       (v1.PersistentVolumeClaim.Status pvc) <> v1.ClaimPending) pvcs.
Proof.
  split.
  - intros Hget.
    destruct (GetPVCsForGroupSnapshot_success _ _ _ Hget) as (Hitems & Hne & Hall).
    unfold GetPVCsForGroupSnapshot in Hget.
    destruct (GetPersistentVolumeClaims namespace matchLabels)
      as [pvcList [e|]] eqn:Hlist; [done|].
    exists pvcList. repeat split; try done.
    eapply Forall_impl; [exact Hall|]. intros pvc. apply isPending_false.
  - intros (pvcList & Hlist & <- & Hne & Hall).
    unfold GetPVCsForGroupSnapshot. rewrite Hlist.
    destruct (v1.PersistentVolumeClaimList.Items pvcList) as [|p rest]; [done|].
    change (length (p :: rest) =? 0)%nat with false. cbv iota.
    rewrite checkPending_none; [done|].
    eapply Forall_impl; [exact Hall|]. intros pvc. apply isPending_false.
Qed.

Lemma checkPending_error (items : list v1.PersistentVolumeClaim.t) (e : error) :
  checkPending items = Some e ->
  exists pvc, pvc ∈ items /\ isPending pvc = true /\ Some e = pendingError pvc.
Proof.
  induction items as [|p rest IH]; simpl; [done|].
  destruct (isPending p) eqn:Hp.
  - intros He. exists p. repeat split; [apply list_elem_of_here|done|done].
  - intros He. destruct (IH He) as (pvc & Hin & Hpvc & Herr).
    exists pvc. repeat split; [by apply list_elem_of_further|done|done].
Qed.

(** What the loop over the PVCs returns: the first failing lookup's error
    and nothing else, or the names collected. *)
Lemma collectVolumes_result (pvcs : list v1.PersistentVolumeClaim.t)
    (volNames : list string) :
  (exists before pvc after e,
     pvcs = before ++ pvc :: after
     /\ Forall (fun p => (GetVolumeForPersistentVolumeClaim p).2 = None) before
     /\ (GetVolumeForPersistentVolumeClaim pvc).2 = Some e
     /\ collectVolumes pvcs volNames = ([], Some e))
  \/ (Forall (fun p => (GetVolumeForPersistentVolumeClaim p).2 = None) pvcs
      /\ collectVolumes pvcs volNames
         = (volNames ++ map (fun p => (GetVolumeForPersistentVolumeClaim p).1) pvcs,
            None)).
Proof.
  revert volNames. induction pvcs as [|p rest IH]; intros volNames; simpl.
  - right. split; [constructor|]. by rewrite app_nil_r.
  - destruct (GetVolumeForPersistentVolumeClaim p) as [volName [e|]] eqn:Hp.
    + left. exists [], p, rest, e. rewrite Hp. by repeat split.
    + destruct (IH (volNames ++ [volName]))
        as [(before & pvc & after & e & -> & Hbefore & Hpvc & ->)|[Hall ->]].
      * left. exists (p :: before), pvc, after, e. repeat split; try done.
        constructor; [by rewrite Hp|done].
      * right. split; [constructor; [by rewrite Hp|done]|].
        by rewrite <- app_assoc.
Qed.

(** X2. Neither function returns a partial result: with an error the list
    returned is empty, and without one it is not. *)
Theorem GetVolumeNamesFromLabelSelector_all_or_nothing (namespace : string)
    (labels : gmap string string) :
  ((GetPVCsForGroupSnapshot namespace labels).1 = []
   <-> (GetPVCsForGroupSnapshot namespace labels).2 <> None)
  /\ ((GetVolumeNamesFromLabelSelector namespace labels).1 = []
      <-> (GetVolumeNamesFromLabelSelector namespace labels).2 <> None).
Proof.
  assert (Hpvcs : (GetPVCsForGroupSnapshot namespace labels).1 = []
                  <-> (GetPVCsForGroupSnapshot namespace labels).2 <> None).
  { destruct (GetPVCsForGroupSnapshot namespace labels) as [pvcs [e|]] eqn:Hget.
    - split; [done|]. intros _. revert Hget. unfold GetPVCsForGroupSnapshot.
      destruct (GetPersistentVolumeClaims namespace labels) as [pvcList [e'|]];
        [by intros [= <- _]|].
      destruct (length _ =? 0)%nat; [by intros [= <- _]|].
      by destruct (checkPending _); intros [= <- ?].
    - destruct (GetPVCsForGroupSnapshot_success _ _ _ Hget) as (_ & Hne & _).
      simpl. by split. }
  split; [exact Hpvcs|].
  unfold GetVolumeNamesFromLabelSelector.
  destruct (GetPVCsForGroupSnapshot namespace labels) as [pvcs [e|]] eqn:Hget;
    [by split|].
  simpl in Hpvcs.
  destruct (collectVolumes_result pvcs [])
    as [(before & pvc & after & e & _ & _ & _ & ->)|[_ ->]]; simpl; [by split|].
  split; [|done]. intros Hnil. apply fmap_nil_inv in Hnil. by apply Hpvcs.
Qed.

(** X3. The lookups run in list order and the first one that fails ends the
    resolution: its error is returned as it is, with no volume name, whatever
    the lookups of the later PVCs would give. *)
Theorem GetVolumeNamesFromLabelSelector_first_failure (namespace : string)
    (labels : gmap string string)
    (before after : list v1.PersistentVolumeClaim.t)
    (pvc : v1.PersistentVolumeClaim.t) (e : error) :
  GetPVCsForGroupSnapshot namespace labels = (before ++ pvc :: after, None) ->
  Forall (fun p => (GetVolumeForPersistentVolumeClaim p).2 = None) before ->
  (GetVolumeForPersistentVolumeClaim pvc).2 = Some e ->
  GetVolumeNamesFromLabelSelector namespace labels = ([], Some e).
Proof.
  intros Hget Hbefore Hpvc.
  unfold GetVolumeNamesFromLabelSelector. rewrite Hget.
  assert (Hloop : forall volNames : list string,
            collectVolumes (before ++ pvc :: after) volNames = ([], Some e));
    [|apply Hloop].
  clear Hget.
  induction Hbefore as [|p rest Hp _ IH]; intros volNames; simpl.
  - destruct (GetVolumeForPersistentVolumeClaim pvc) as [volName err].
    simpl in Hpvc. by subst err.
  - destruct (GetVolumeForPersistentVolumeClaim p) as [volName err].
    simpl in Hp. subst err. apply IH.
Qed.

(** X4. A successful resolution means that everything succeeded: the listing
    gave a list that is not empty and has no pending PVC, every lookup
    succeeded, and the names returned are those of the lookups in list
    order. *)
Theorem GetVolumeNamesFromLabelSelector_success (namespace : string)
    (labels : gmap string string) (volNames : list string) :
  GetVolumeNamesFromLabelSelector namespace labels = (volNames, None) ->
  exists pvcList : v1.PersistentVolumeClaimList.t,
    GetPersistentVolumeClaims namespace labels = (pvcList, None)
    /\ v1.PersistentVolumeClaimList.Items pvcList <> []
    /\ Forall (fun pvc =>
                 v1.PersistentVolumeClaimStatus.Phase
                   (v1.PersistentVolumeClaim.Status pvc) <> v1.ClaimPending)
              (v1.PersistentVolumeClaimList.Items pvcList)
    /\ Forall (fun pvc => (GetVolumeForPersistentVolumeClaim pvc).2 = None)
              (v1.PersistentVolumeClaimList.Items pvcList)
    /\ volNames = map (fun pvc => (GetVolumeForPersistentVolumeClaim pvc).1)
                      (v1.PersistentVolumeClaimList.Items pvcList).
Proof.
  unfold GetVolumeNamesFromLabelSelector.
  destruct (GetPVCsForGroupSnapshot namespace labels) as [pvcs [e|]] eqn:Hget;
    [done|].
  intros Hcollect.
  destruct (GetPVCsForGroupSnapshot_success _ _ _ Hget) as (Hitems & Hne & Hall).
  unfold GetPVCsForGroupSnapshot in Hget.
  destruct (GetPersistentVolumeClaims namespace labels)
    as [pvcList [e|]] eqn:Hlist; [done|].
  simpl in Hitems. subst pvcs. exists pvcList.
  destruct (collectVolumes_result (v1.PersistentVolumeClaimList.Items pvcList) [])
    as [(before & pvc & after & e & _ & _ & _ & Hfail)|[Hok Hres]].
  { rewrite Hfail in Hcollect. done. }
  rewrite Hres in Hcollect. injection Hcollect as <-.
  repeat split; try done.
  eapply Forall_impl; [exact Hall|]. intros pvc. apply isPending_false.
Qed.

(** X5. Every error of [GetVolumeNamesFromLabelSelector] is one of four,
    none of them wrapped: the error of the listing, the "found no PVCs"
    error for an empty listing, the "still in Pending phase" error of a
    pending PVC of the listing, or the error of the lookup of a listed
    PVC. *)
Theorem GetVolumeNamesFromLabelSelector_errors (namespace : string)
    (labels : gmap string string) (volNames : list string) (e : error) :
  GetVolumeNamesFromLabelSelector namespace labels = (volNames, Some e) ->
  let listed := GetPersistentVolumeClaims namespace labels in
  listed.2 = Some e
  \/ (listed.2 = None
      /\ v1.PersistentVolumeClaimList.Items listed.1 = []
      /\ Some e = Errorf ("found no PVCs for group snapshot with given label selectors: "
                          +:+ Sprint labels))
  \/ (listed.2 = None
      /\ exists pvc,
           pvc ∈ v1.PersistentVolumeClaimList.Items listed.1
           /\ v1.PersistentVolumeClaimStatus.Phase (v1.PersistentVolumeClaim.Status pvc)
              = v1.ClaimPending
           /\ Some e
              = Errorf ("PVC: [" +:+ v1.PersistentVolumeClaim.Namespace pvc +:+ "] "
                        +:+ v1.PersistentVolumeClaim.Name pvc +:+ " is still in "
                        +:+ v1.PersistentVolumeClaimStatus.Phase
                              (v1.PersistentVolumeClaim.Status pvc)
                        +:+ " phase. Group snapshot will trigger after all PVCs are bound"))
  \/ (listed.2 = None
      /\ exists pvc,
           pvc ∈ v1.PersistentVolumeClaimList.Items listed.1
           /\ (GetVolumeForPersistentVolumeClaim pvc).2 = Some e).
Proof.
  unfold GetVolumeNamesFromLabelSelector, GetPVCsForGroupSnapshot.
  destruct (GetPersistentVolumeClaims namespace labels) as [pvcList [e'|]];
    simpl; [intros [= _ ->]; by left|].
  destruct (v1.PersistentVolumeClaimList.Items pvcList) as [|p rest] eqn:Hitems.
  { simpl. intros [= _ <-]. right. left. by repeat split. }
  change (length (p :: rest) =? 0)%nat with false. cbv iota.
  destruct (checkPending (p :: rest)) as [e'|] eqn:Hscan.
  - intros [= _ ->]. right. right. left. split; [done|].
    destruct (checkPending_error _ _ Hscan) as (pvc & Hin & Hpvc & Herr).
    exists pvc. repeat split; [done|by apply isPending_spec|done].
  - intros Hcollect. right. right. right. split; [done|].
    destruct (collectVolumes_result (p :: rest) [])
      as [(before & pvc & after & e' & Hsplit & _ & Hpvc & Hfail)|[_ Hres]].
    + rewrite Hfail in Hcollect. injection Hcollect as _ ->.
      exists pvc. split; [|done]. rewrite Hsplit.
      apply elem_of_app. right. apply list_elem_of_here.
    + rewrite Hres in Hcollect. done.
Qed.

(** ** CRD readiness waiters *)

(** The three ways a scan of the v1beta1 conditions can end. *)
Lemma scanConditions_ends
    (conds : list apiextensionsv1beta1.CustomResourceDefinitionCondition.t) :
  (Forall (fun c => ~ apiextensionsv1beta1.isEstablished c /\ ~ apiextensionsv1beta1.isNameConflict c) conds
   /\ scanConditions conds = (false, None))
  \/ (exists before cond after,
        conds = before ++ cond :: after
        /\ Forall (fun c => ~ apiextensionsv1beta1.isEstablished c /\ ~ apiextensionsv1beta1.isNameConflict c) before
        /\ apiextensionsv1beta1.isEstablished cond
        /\ scanConditions conds = (true, None))
  \/ (exists before cond after,
        conds = before ++ cond :: after
        /\ Forall (fun c => ~ apiextensionsv1beta1.isEstablished c /\ ~ apiextensionsv1beta1.isNameConflict c) before
        /\ apiextensionsv1beta1.isNameConflict cond
        /\ scanConditions conds
           = (false, Errorf ("name conflict: "
                +:+ apiextensionsv1beta1.CustomResourceDefinitionCondition.Reason cond))).
Proof.
  induction conds as [|c rest IH]; [left; by split|].
  destruct (decide (apiextensionsv1beta1.isEstablished c)) as [Hest|Hest].
  { right. left. exists [], c, rest.
    split; [done|]. split; [constructor|]. split; [exact Hest|].
    destruct Hest as [Htype Hstatus]. by apply scanConditions_established. }
  destruct (decide (apiextensionsv1beta1.isNameConflict c)) as [Hnames|Hnames].
  { right. right. exists [], c, rest.
    split; [done|]. split; [constructor|]. split; [exact Hnames|].
    destruct Hnames as [Htype Hstatus]. by apply scanConditions_conflict. }
  rewrite (scanConditions_skip c rest Hest Hnames).
  destruct IH as [[Hall Hres]
                 |[(before & cond & after & -> & Hbefore & Hcond & Hres)
                  |(before & cond & after & -> & Hbefore & Hcond & Hres)]].
  - left. split; [by constructor|done].
  - right. left. exists (c :: before), cond, after.
    split; [done|]. split; [by constructor|]. by split.
  - right. right. exists (c :: before), cond, after.
    split; [done|]. split; [by constructor|]. by split.
Qed.

Lemma scanConditions_filter
    (conds : list apiextensionsv1beta1.CustomResourceDefinitionCondition.t) :
  scanConditions conds
  = scanConditions
      (filter (fun c => apiextensionsv1beta1.isEstablished c \/ apiextensionsv1beta1.isNameConflict c) conds).
Proof.
  induction conds as [|c rest IH]; [done|].
  rewrite filter_cons. case_decide as Hc.
  - destruct Hc as [[Htype Hstatus]|[Htype Hstatus]].
    + by rewrite !scanConditions_established.
    + by rewrite !scanConditions_conflict.
  - rewrite <- IH.
    apply scanConditions_skip; intros Hdecides; apply Hc; [by left|by right].
Qed.

(** The three ways a scan of the v1 conditions can end. *)
Lemma scanConditionsV1_ends
    (conds : list apiextensionsv1.CustomResourceDefinitionCondition.t) :
  (Forall (fun c => ~ apiextensionsv1.isEstablished c /\ ~ apiextensionsv1.isNameConflict c) conds
   /\ scanConditionsV1 conds = (false, None))
  \/ (exists before cond after,
        conds = before ++ cond :: after
        /\ Forall (fun c => ~ apiextensionsv1.isEstablished c /\ ~ apiextensionsv1.isNameConflict c) before
        /\ apiextensionsv1.isEstablished cond
        /\ scanConditionsV1 conds = (true, None))
  \/ (exists before cond after,
        conds = before ++ cond :: after
        /\ Forall (fun c => ~ apiextensionsv1.isEstablished c /\ ~ apiextensionsv1.isNameConflict c) before
        /\ apiextensionsv1.isNameConflict cond
        /\ scanConditionsV1 conds
           = (false, Errorf ("name conflict: "
                +:+ apiextensionsv1.CustomResourceDefinitionCondition.Reason cond))).
Proof.
  induction conds as [|c rest IH]; [left; by split|].
  destruct (decide (apiextensionsv1.isEstablished c)) as [Hest|Hest].
  { right. left. exists [], c, rest.
    split; [done|]. split; [constructor|]. split; [exact Hest|].
    destruct Hest as [Htype Hstatus]. by apply scanConditionsV1_established. }
  destruct (decide (apiextensionsv1.isNameConflict c)) as [Hnames|Hnames].
  { right. right. exists [], c, rest.
    split; [done|]. split; [constructor|]. split; [exact Hnames|].
    destruct Hnames as [Htype Hstatus]. by apply scanConditionsV1_conflict. }
  rewrite (scanConditionsV1_skip c rest Hest Hnames).
  destruct IH as [[Hall Hres]
                 |[(before & cond & after & -> & Hbefore & Hcond & Hres)
                  |(before & cond & after & -> & Hbefore & Hcond & Hres)]].
  - left. split; [by constructor|done].
  - right. left. exists (c :: before), cond, after.
    split; [done|]. split; [by constructor|]. by split.
  - right. right. exists (c :: before), cond, after.
    split; [done|]. split; [by constructor|]. by split.
Qed.

Lemma scanConditionsV1_filter
    (conds : list apiextensionsv1.CustomResourceDefinitionCondition.t) :
  scanConditionsV1 conds
  = scanConditionsV1
      (filter (fun c => apiextensionsv1.isEstablished c \/ apiextensionsv1.isNameConflict c) conds).
Proof.
  induction conds as [|c rest IH]; [done|].
  rewrite filter_cons. case_decide as Hc.
  - destruct Hc as [[Htype Hstatus]|[Htype Hstatus]].
    + by rewrite !scanConditionsV1_established.
    + by rewrite !scanConditionsV1_conflict.
  - rewrite <- IH.
    apply scanConditionsV1_skip; intros Hdecides; apply Hc; [by left|by right].
Qed.

(** X6. A poll reports success only for a fetch that succeeded and whose
    first deciding condition is an Established condition with status True;
    it never reports success together with an error. *)
Theorem ValidateCRD_condition_success
    (crd : apiextensionsv1beta1.CustomResourceDefinition.t)
    (crdV1 : apiextensionsv1.CustomResourceDefinition.t)
    (err : option error) :
  (forall e' : option error,
     ValidateCRD_condition (crd, err) = (true, e') ->
     e' = None /\ err = None
     /\ exists before cond after,
          apiextensionsv1beta1.CustomResourceDefinitionStatus.Conditions
               (apiextensionsv1beta1.CustomResourceDefinition.Status crd)
          = before ++ cond :: after
          /\ Forall (fun c => ~ apiextensionsv1beta1.isEstablished c /\ ~ apiextensionsv1beta1.isNameConflict c) before
          /\ apiextensionsv1beta1.isEstablished cond)
  /\ (forall e' : option error,
     ValidateCRDV1_condition (crdV1, err) = (true, e') ->
     e' = None /\ err = None
     /\ exists before cond after,
          apiextensionsv1.CustomResourceDefinitionStatus.Conditions
               (apiextensionsv1.CustomResourceDefinition.Status crdV1)
          = before ++ cond :: after
          /\ Forall (fun c => ~ apiextensionsv1.isEstablished c /\ ~ apiextensionsv1.isNameConflict c) before
          /\ apiextensionsv1.isEstablished cond).
Proof.
  unfold ValidateCRD_condition, ValidateCRDV1_condition.
  destruct (IsNotFound err); [by split|].
  destruct err as [e|]; [by split|].
  split; intros e' Hscan.
  - destruct (scanConditions_ends
                (apiextensionsv1beta1.CustomResourceDefinitionStatus.Conditions
                   (apiextensionsv1beta1.CustomResourceDefinition.Status crd)))
      as [[_ Hres]|[(before & cond & after & Hsplit & Hbefore & Hcond & Hres)
                   |(before & cond & after & _ & _ & _ & Hres)]];
      rewrite Hres in Hscan; try done.
    injection Hscan as <-. split; [done|]. split; [done|].
    by exists before, cond, after.
  - destruct (scanConditionsV1_ends
                (apiextensionsv1.CustomResourceDefinitionStatus.Conditions
                   (apiextensionsv1.CustomResourceDefinition.Status crdV1)))
      as [[_ Hres]|[(before & cond & after & Hsplit & Hbefore & Hcond & Hres)
                   |(before & cond & after & _ & _ & _ & Hres)]];
      rewrite Hres in Hscan; try done.
    injection Hscan as <-. split; [done|]. split; [done|].
    by exists before, cond, after.
Qed.

(** X7. The error of a poll is either the error of the fetch, unchanged, or
    "name conflict: <reason>" for the first deciding condition of a fetch
    that succeeded, a NamesAccepted condition with status False; and a poll
    that returns an error never reports success. *)
Theorem ValidateCRD_condition_errors
    (crd : apiextensionsv1beta1.CustomResourceDefinition.t)
    (crdV1 : apiextensionsv1.CustomResourceDefinition.t)
    (err : option error) :
  (forall (done : bool) (e : error),
     ValidateCRD_condition (crd, err) = (done, Some e) ->
     done = false
     /\ (err = Some e
         \/ (err = None
             /\ exists before cond after,
                  apiextensionsv1beta1.CustomResourceDefinitionStatus.Conditions
               (apiextensionsv1beta1.CustomResourceDefinition.Status crd)
                  = before ++ cond :: after
                  /\ Forall (fun c => ~ apiextensionsv1beta1.isEstablished c /\ ~ apiextensionsv1beta1.isNameConflict c) before
                  /\ apiextensionsv1beta1.isNameConflict cond
                  /\ e = errorString ("name conflict: "
                          +:+ apiextensionsv1beta1.CustomResourceDefinitionCondition.Reason cond))))
  /\ (forall (done : bool) (e : error),
     ValidateCRDV1_condition (crdV1, err) = (done, Some e) ->
     done = false
     /\ (err = Some e
         \/ (err = None
             /\ exists before cond after,
                  apiextensionsv1.CustomResourceDefinitionStatus.Conditions
               (apiextensionsv1.CustomResourceDefinition.Status crdV1)
                  = before ++ cond :: after
                  /\ Forall (fun c => ~ apiextensionsv1.isEstablished c /\ ~ apiextensionsv1.isNameConflict c) before
                  /\ apiextensionsv1.isNameConflict cond
                  /\ e = errorString ("name conflict: "
                          +:+ apiextensionsv1.CustomResourceDefinitionCondition.Reason cond)))).
Proof.
  unfold ValidateCRD_condition, ValidateCRDV1_condition.
  destruct (IsNotFound err); [by split|].
  destruct err as [e0|].
  { split; intros done e [= <- <-]; split; auto. }
  split; intros done e Hscan.
  - destruct (scanConditions_ends
                (apiextensionsv1beta1.CustomResourceDefinitionStatus.Conditions
                   (apiextensionsv1beta1.CustomResourceDefinition.Status crd)))
      as [[_ Hres]|[(before & cond & after & _ & _ & _ & Hres)
                   |(before & cond & after & Hsplit & Hbefore & Hcond & Hres)]];
      rewrite Hres in Hscan; try done.
    injection Hscan as <- <-. split; [done|]. right. split; [done|].
    by exists before, cond, after.
  - destruct (scanConditionsV1_ends
                (apiextensionsv1.CustomResourceDefinitionStatus.Conditions
                   (apiextensionsv1.CustomResourceDefinition.Status crdV1)))
      as [[_ Hres]|[(before & cond & after & _ & _ & _ & Hres)
                   |(before & cond & after & Hsplit & Hbefore & Hcond & Hres)]];
      rewrite Hres in Hscan; try done.
    injection Hscan as <- <-. split; [done|]. right. split; [done|].
    by exists before, cond, after.
Qed.

(** X8. Only the deciding conditions count. Dropping from a fetched status
    every condition that is neither Established with status True nor
    NamesAccepted with status False (other types, status Unknown, an
    Established condition that is False, a NamesAccepted one that is True)
    leaves the outcome of the poll unchanged. *)
Theorem ValidateCRD_condition_deciding_only
    (crd : apiextensionsv1beta1.CustomResourceDefinition.t)
    (crdV1 : apiextensionsv1.CustomResourceDefinition.t)
    (err : option error) :
  ValidateCRD_condition (crd, err)
  = ValidateCRD_condition
      ({| apiextensionsv1beta1.CustomResourceDefinition.ObjectMeta :=
            apiextensionsv1beta1.CustomResourceDefinition.ObjectMeta crd;
          apiextensionsv1beta1.CustomResourceDefinition.Status :=
            {| apiextensionsv1beta1.CustomResourceDefinitionStatus.Conditions :=
                 filter (fun c => apiextensionsv1beta1.isEstablished c
                                  \/ apiextensionsv1beta1.isNameConflict c)
                   (apiextensionsv1beta1.CustomResourceDefinitionStatus.Conditions
                      (apiextensionsv1beta1.CustomResourceDefinition.Status crd)) |} |},
       err)
  /\ ValidateCRDV1_condition (crdV1, err)
     = ValidateCRDV1_condition
         ({| apiextensionsv1.CustomResourceDefinition.ObjectMeta :=
               apiextensionsv1.CustomResourceDefinition.ObjectMeta crdV1;
             apiextensionsv1.CustomResourceDefinition.Spec :=
               apiextensionsv1.CustomResourceDefinition.Spec crdV1;
             apiextensionsv1.CustomResourceDefinition.Status :=
               {| apiextensionsv1.CustomResourceDefinitionStatus.Conditions :=
                    filter (fun c => apiextensionsv1.isEstablished c
                                     \/ apiextensionsv1.isNameConflict c)
                      (apiextensionsv1.CustomResourceDefinitionStatus.Conditions
                         (apiextensionsv1.CustomResourceDefinition.Status crdV1)) |} |},
          err).
Proof.
  unfold ValidateCRD_condition, ValidateCRDV1_condition.
  destruct (IsNotFound err); [by split|].
  destruct err as [e|]; [by split|]. simpl.
  split; [apply scanConditions_filter|apply scanConditionsV1_filter].
Qed.

(** *** The waiters on the poll loop *)

(** X9. On the poller as modelled, a waiter ends at its first poll that is
    not pending, if that is one of its first 13 polls: it returns the error of
    that poll, nil for a success, and polls no further; what the later
    fetches would answer does not matter. *)
Theorem ValidateCRD_first_poll_not_pending (client : clientset.Clientset)
    (crdName : string) :
  let condition := fun k : nat =>
    ValidateCRD_condition (clientset.ApiextensionsV1beta1_Get client k crdName) in
  let conditionV1 := fun k : nat =>
    ValidateCRDV1_condition (clientset.ApiextensionsV1_Get client k crdName) in
  (forall (k : nat) (done : bool) (err : option error),
     k <= 12 ->
     (forall j : nat, j < k -> condition j = (false, None)) ->
     condition k = (done, err) ->
     done = true \/ err <> None ->
     ValidateCRD client crdName = err
     /\ (wait.PollImmediateCalls retryInterval crdTimeout condition).2 = S k)
  /\ (forall (k : nat) (done : bool) (err : option error),
        k <= 12 ->
        (forall j : nat, j < k -> conditionV1 j = (false, None)) ->
        conditionV1 k = (done, err) ->
        done = true \/ err <> None ->
        ValidateCRDV1 client crdName = err
        /\ (wait.PollImmediateCalls retryInterval crdTimeout conditionV1).2 = S k).
Proof.
  intros condition conditionV1.
  unfold ValidateCRD, ValidateCRDV1, wait.PollImmediate, wait.PollImmediateCalls.
  fold condition conditionV1. rewrite crd_ticks.
  split; intros k done err Hk Hpending Hlast Hends.
  - rewrite (pollLoop_first k 13 0 condition done err); try done; [lia|].
    intros i Hi. apply Hpending. lia.
  - rewrite (pollLoop_first k 13 0 conditionV1 done err); try done; [lia|].
    intros i Hi. apply Hpending. lia.
Qed.

(** X10. A CRD that is never found is never an error of its own: when
    every fetch reports not-found, the waiter (on the poller as modelled)
    ends with the timeout error of the [wait] package. *)
Theorem ValidateCRD_never_found (client : clientset.Clientset) (crdName : string) :
  ((forall k : nat,
      IsNotFound (clientset.ApiextensionsV1beta1_Get client k crdName).2 = true) ->
   ValidateCRD client crdName = Some wait.ErrWaitTimeout)
  /\ ((forall k : nat,
         IsNotFound (clientset.ApiextensionsV1_Get client k crdName).2 = true) ->
      ValidateCRDV1 client crdName = Some wait.ErrWaitTimeout).
Proof.
  unfold ValidateCRD, ValidateCRDV1, wait.PollImmediate, wait.PollImmediateCalls.
  rewrite crd_ticks.
  split; intros Hnotfound; rewrite pollLoop_timeout; try done; intros k _.
  - specialize (Hnotfound k). unfold ValidateCRD_condition.
    destruct (clientset.ApiextensionsV1beta1_Get client k crdName) as [crd err].
    simpl in Hnotfound. by rewrite Hnotfound.
  - specialize (Hnotfound k). unfold ValidateCRDV1_condition.
    destruct (clientset.ApiextensionsV1_Get client k crdName) as [crd err].
    simpl in Hnotfound. by rewrite Hnotfound.
Qed.

(** ** CRD registrar *)

(** X11. Whatever the descriptor, the object [CreateCRD] submits is
    consistent with itself: its name is <plural>.<group> of its own spec,
    its group is the descriptor's, exactly one of its versions is the
    storage version, every version is served, and its scope is one of the
    two scopes; the error returned is the error of the submission,
    unchanged, an "already exists" included. *)
Theorem CreateCRD_well_formed (resource : apiextensions.CustomResource.t)
    (submitted log : list apiextensionsv1.CustomResourceDefinition.t)
    (err : option error) :
  CreateCRD resource submitted = (err, log) ->
  exists crd : apiextensionsv1.CustomResourceDefinition.t,
    log = submitted ++ [crd]
    /\ err = RegisterCRD crd
    /\ metav1.ObjectMeta.Name (apiextensionsv1.CustomResourceDefinition.ObjectMeta crd)
       = apiextensionsv1.CustomResourceDefinitionNames.Plural
           (apiextensionsv1.CustomResourceDefinitionSpec.Names
              (apiextensionsv1.CustomResourceDefinition.Spec crd))
         +:+ "."
         +:+ apiextensionsv1.CustomResourceDefinitionSpec.Group
               (apiextensionsv1.CustomResourceDefinition.Spec crd)
    /\ apiextensionsv1.CustomResourceDefinitionSpec.Group
         (apiextensionsv1.CustomResourceDefinition.Spec crd)
       = apiextensions.CustomResource.Group resource
    /\ length (filter (fun v => apiextensionsv1.CustomResourceDefinitionVersion.Storage v = true)
                 (apiextensionsv1.CustomResourceDefinitionSpec.Versions
                    (apiextensionsv1.CustomResourceDefinition.Spec crd))) = 1
    /\ Forall (fun v => apiextensionsv1.CustomResourceDefinitionVersion.Served v = true)
              (apiextensionsv1.CustomResourceDefinitionSpec.Versions
                 (apiextensionsv1.CustomResourceDefinition.Spec crd))
    /\ (apiextensionsv1.CustomResourceDefinitionSpec.Scope
          (apiextensionsv1.CustomResourceDefinition.Spec crd)
        = apiextensionsv1.ClusterScoped
        \/ apiextensionsv1.CustomResourceDefinitionSpec.Scope
             (apiextensionsv1.CustomResourceDefinition.Spec crd)
           = apiextensionsv1.NamespaceScoped).
Proof.
  unfold CreateCRD. intros Hcreate.
  exists (buildCRD resource).
  assert (Hres : err = RegisterCRD (buildCRD resource)
                 /\ log = submitted ++ [buildCRD resource]).
  { destruct (RegisterCRD (buildCRD resource)); by injection Hcreate as <- <-. }
  destruct Hres as [-> ->].
  split; [done|]. split; [done|]. split; [done|]. split; [done|].
  split; [done|]. split; [by repeat constructor|].
  simpl. destruct (String.eqb _ _); auto.
Qed.

(** ** Image registry lookup *)

Lemma Split_no_separator (field : string) (sep : ascii) :
  Contains field sep = false -> Split field sep = [field].
Proof.
  induction field as [|c field IH]; simpl; [done|].
  intros Hfield. apply orb_false_elim in Hfield as [Hc Hfield].
  by rewrite Hc, IH.
Qed.

Lemma Split_field_first (field s : string) (sep : ascii) :
  Contains field sep = false ->
  Split (field +:+ String sep s) sep = field :: Split s sep.
Proof.
  induction field as [|c field IH]; simpl.
  - intros _. by rewrite Ascii.eqb_refl.
  - intros Hfield. apply orb_false_elim in Hfield as [Hc Hfield].
    by rewrite Hc, IH.
Qed.

(** Splitting undoes joining, for fields that do not hold the separator. *)
Lemma Split_Join (fields : list string) (sep : ascii) :
  fields <> [] ->
  Forall (fun field => Contains field sep = false) fields ->
  Split (Join fields sep) sep = fields.
Proof.
  intros Hne Hfields.
  induction Hfields as [|field rest Hfield Hrest IH]; [done|].
  destruct rest as [|field' rest].
  - simpl. by apply Split_no_separator.
  - change (Join (field :: field' :: rest) sep)
      with (field +:+ String sep (Join (field' :: rest) sep)).
    rewrite Split_field_first by done. by rewrite IH.
Qed.

(** X12. The function returns an error exactly when the fetch of the
    deployment failed, and then with an empty registry and an empty secret
    name: it adds no error of its own. *)
Theorem GetImageRegistryFromDeployment_error (name namespace : string)
    (registry secret : string) (e : error) :
  GetImageRegistryFromDeployment name namespace = ret (registry, secret, Some e)
  <-> (GetDeployment name namespace).2 = Some e /\ registry = "" /\ secret = "".
Proof.
  destruct (GetDeployment name namespace) as [deploy [e'|]] eqn:Hget.
  - unfold GetImageRegistryFromDeployment. rewrite Hget. simpl. split.
    + by intros [= <- <- <-].
    + by intros ([= <-] & -> & ->).
  - rewrite (GetImageRegistryFromDeployment_cases _ _ _ Hget). simpl.
    split; [|by intros [? _]].
    destruct (v1.PodSpec.Containers _) as [|container rest]; [done|].
    by destruct (v1.PodSpec.ImagePullSecrets _) as [[|first secrets]|].
Qed.

(** X13. For an image reference made of fields without "/" joined by "/",
    the registry returned is the first field when there are exactly three
    fields and the empty string for any other number of fields: a reference
    with a nested repository path (four fields or more) gives no registry. *)
Theorem GetImageRegistryFromDeployment_fields (name namespace : string)
    (deploy : appsv1.Deployment.t) (container : v1.Container.t)
    (rest : list v1.Container.t) (fields : list string) :
  GetDeployment name namespace = (deploy, None) ->
  let podSpec :=
    v1.PodTemplateSpec.Spec
      (appsv1.DeploymentSpec.Template (appsv1.Deployment.Spec deploy)) in
  v1.PodSpec.Containers podSpec = container :: rest ->
  v1.PodSpec.ImagePullSecrets podSpec <> Some [] ->
  v1.Container.Image container = Join fields "/" ->
  fields <> [] ->
  Forall (fun field => Contains field "/" = false) fields ->
  exists secret : string,
    GetImageRegistryFromDeployment name namespace
    = ret (match fields with
           | [registry; _; _] => registry
           | _ => ""
           end, secret, None).
Proof.
  intros Hget podSpec Hcontainers Hsecrets Himage Hne Hfields.
  rewrite (GetImageRegistryFromDeployment_cases _ _ _ Hget). fold podSpec. simpl.
  rewrite Hcontainers, Himage, Split_Join by done.
  destruct (v1.PodSpec.ImagePullSecrets podSpec) as [[|first secrets]|];
    [done| |]; eauto.
Qed.

(** X14. Only the image of the first container and the name of the first
    image pull secret are read: two deployments that agree on these (and on
    having a container, and on the pull-secret slice being nil, empty or
    not) give the same result, whatever else they hold. *)
Theorem GetImageRegistryFromDeployment_first_only
    (name namespace name' namespace' : string)
    (deploy deploy' : appsv1.Deployment.t) :
  GetDeployment name namespace = (deploy, None) ->
  GetDeployment name' namespace' = (deploy', None) ->
  let podSpec :=
    v1.PodTemplateSpec.Spec
      (appsv1.DeploymentSpec.Template (appsv1.Deployment.Spec deploy)) in
  let podSpec' :=
    v1.PodTemplateSpec.Spec
      (appsv1.DeploymentSpec.Template (appsv1.Deployment.Spec deploy')) in
  v1.Container.Image <$> v1.PodSpec.Containers podSpec !! 0
  = v1.Container.Image <$> v1.PodSpec.Containers podSpec' !! 0 ->
  (fun secrets : list v1.LocalObjectReference.t =>
     v1.LocalObjectReference.Name <$> secrets !! 0)
    <$> v1.PodSpec.ImagePullSecrets podSpec
  = (fun secrets : list v1.LocalObjectReference.t =>
       v1.LocalObjectReference.Name <$> secrets !! 0)
      <$> v1.PodSpec.ImagePullSecrets podSpec' ->
  GetImageRegistryFromDeployment name namespace
  = GetImageRegistryFromDeployment name' namespace'.
Proof.
  intros Hget Hget' podSpec podSpec' Himage Hsecret.
  rewrite (GetImageRegistryFromDeployment_cases _ _ _ Hget).
  rewrite (GetImageRegistryFromDeployment_cases _ _ _ Hget').
  fold podSpec podSpec'. simpl.
  destruct (v1.PodSpec.Containers podSpec) as [|container rest],
           (v1.PodSpec.Containers podSpec') as [|container' rest'];
    simpl in Himage; try done.
  injection Himage as ->.
  destruct (v1.PodSpec.ImagePullSecrets podSpec) as [[|first secrets]|],
           (v1.PodSpec.ImagePullSecrets podSpec') as [[|first' secrets']|];
    simpl in Hsecret; try done.
  by injection Hsecret as ->.
Qed.

(** X18. A registry is reported only for a reference of the exact form
    registry/repository/image: when the registry returned is not empty, the
    image of the first container is that registry, a "/", a second field, a
    "/" and a third field, none of the three holding a "/". *)
Theorem GetImageRegistryFromDeployment_registry_form (name namespace : string)
    (registry secret : string) (err : option error) :
  GetImageRegistryFromDeployment name namespace = ret (registry, secret, err) ->
  registry <> "" ->
  exists (container : v1.Container.t) (repository image : string),
    v1.PodSpec.Containers
      (v1.PodTemplateSpec.Spec
         (appsv1.DeploymentSpec.Template
            (appsv1.Deployment.Spec (GetDeployment name namespace).1))) !! 0
    = Some container
    /\ v1.Container.Image container = registry +:+ "/" +:+ repository +:+ "/" +:+ image
    /\ Contains registry "/" = false
    /\ Contains repository "/" = false
    /\ Contains image "/" = false.
Proof.
  destruct (GetDeployment name namespace) as [deploy [e|]] eqn:Hget.
  { unfold GetImageRegistryFromDeployment. rewrite Hget. by intros [= <- _ _]. }
  rewrite (GetImageRegistryFromDeployment_cases _ _ _ Hget). simpl.
  destruct (v1.PodSpec.Containers _) as [|container rest]; [done|].
  pose proof (Join_Split (v1.Container.Image container) "/") as Hjoin.
  pose proof (Split_fields (v1.Container.Image container) "/") as Hfields.
  intros Hret Hregistry.
  assert (Hthree : exists repository image,
            Split (v1.Container.Image container) "/" = [registry; repository; image]).
  { destruct (Split (v1.Container.Image container) "/")
      as [|f1 [|f2 [|f3 [|f4 fields]]]];
      destruct (v1.PodSpec.ImagePullSecrets _) as [[|first secrets]|];
      try done; injection Hret as <- _ _; try done; by eexists _, _. }
  destruct Hthree as (repository & image & Hsplit).
  rewrite Hsplit in Hjoin, Hfields.
  exists container, repository, image. split; [done|]. split; [done|].
  inversion Hfields as [|? ? Hf1 Hrest]; subst.
  inversion Hrest as [|? ? Hf2 Hrest']; subst.
  by inversion Hrest' as [|? ? Hf3 _]; subst.
Qed.

(** ** Stork namespace *)

Lemma length_zero_empty (s : string) : Nat.eqb (String.length s) 0 = true <-> s = "".
Proof. by destruct s. Qed.

(** What the function computes, case by case on the listing. *)
Lemma GetStorkPodNamespace_cases :
  GetStorkPodNamespace
  = let listed := ListPods {[ storkPodLabelKey := storkPodLabelValue ]} in
    match listed.2 with
    | Some e => ret ("", Some e)
    | None =>
        match v1.PodList.Items listed.1 with
        | [] => ret ("", Errorf "error: stork namespace is empty")
        | pod :: _ =>
            if decide (v1.Pod.Namespace pod = "")
            then ret ("", Errorf "error: stork namespace is empty")
            else ret (v1.Pod.Namespace pod, None)
        end
    end.
Proof.
  unfold GetStorkPodNamespace.
  destruct (ListPods _) as [pods [e|]]; simpl; [done|].
  destruct (v1.PodList.Items pods) as [|pod rest]; simpl; [done|].
  case_decide as Hns.
  - by rewrite Hns.
  - destruct (Nat.eqb _ 0) eqn:Hlen; [|done].
    by apply length_zero_empty in Hlen.
Qed.

(** X15. [GetStorkPodNamespace] never panics, its index being guarded by
    the length check, and it returns a namespace or an error, never both:
    the namespace is empty exactly when there is an error. *)
Theorem GetStorkPodNamespace_returns :
  exists (ns : string) (err : option error),
    GetStorkPodNamespace = ret (ns, err) /\ (ns = "" <-> err <> None).
Proof.
  rewrite GetStorkPodNamespace_cases. simpl.
  destruct (ListPods _) as [pods [e|]]; simpl.
  { exists "", (Some e). by split. }
  destruct (v1.PodList.Items pods) as [|pod rest].
  { eexists "", _. by split. }
  case_decide as Hns.
  - eexists "", _. by split.
  - exists (v1.Pod.Namespace pod), None. by split.
Qed.

(** X16. It succeeds exactly when listing the pods labelled name=stork
    succeeds and the first pod listed has a namespace that is not empty,
    which it returns; the pods after the first are not looked at. *)
Theorem GetStorkPodNamespace_success (ns : string) :
  GetStorkPodNamespace = ret (ns, None)
  <-> exists (pods : v1.PodList.t) (pod : v1.Pod.t) (rest : list v1.Pod.t),
        ListPods {[ "name" := "stork" ]} = (pods, None)
        /\ v1.PodList.Items pods = pod :: rest
        /\ v1.Pod.Namespace pod = ns
        /\ ns <> "".
Proof.
  rewrite GetStorkPodNamespace_cases.
  change ({[storkPodLabelKey := storkPodLabelValue]} : gmap string string)
    with ({[ "name" := "stork" ]} : gmap string string).
  destruct (ListPods _) as [pods [e|]] eqn:Hlist; simpl.
  { split; [done|]. by intros (? & ? & ? & [= _ ?] & _). }
  destruct (v1.PodList.Items pods) as [|pod rest] eqn:Hitems.
  { split; [done|]. intros (pods' & pod' & rest' & [= <-] & Hitems' & _). congruence. }
  case_decide as Hns.
  - split; [done|].
    intros (pods' & pod' & rest' & [= <-] & Hitems' & Hpod & Hne). congruence.
  - split.
    + intros [= <-]. by exists pods, pod, rest.
    + intros (pods' & pod' & rest' & [= <-] & Hitems' & Hpod & Hne).
      rewrite Hitems in Hitems'. injection Hitems' as <- <-. by rewrite Hpod.
Qed.

(** X17. It fails exactly in three cases, always with an empty namespace:
    with the error of the listing, unchanged; or, when the listing
    succeeds, with "error: stork namespace is empty" if no pod is listed or
    if the first pod listed has an empty namespace, even when a later pod
    has one. *)
Theorem GetStorkPodNamespace_failure (ns : string) (e : error) :
  GetStorkPodNamespace = ret (ns, Some e)
  <-> ns = ""
      /\ let listed := ListPods {[ "name" := "stork" ]} in
         listed.2 = Some e
         \/ (listed.2 = None
             /\ e = errorString "error: stork namespace is empty"
             /\ (v1.PodList.Items listed.1 = []
                 \/ exists pod rest,
                      v1.PodList.Items listed.1 = pod :: rest
                      /\ v1.Pod.Namespace pod = "")).
Proof.
  rewrite GetStorkPodNamespace_cases.
  change ({[storkPodLabelKey := storkPodLabelValue]} : gmap string string)
    with ({[ "name" := "stork" ]} : gmap string string).
  destruct (ListPods _) as [pods [e'|]]; simpl.
  { split.
    - intros [= <- <-]. split; [done|]. by left.
    - intros [-> [[= <-]|[? _]]]; done. }
  destruct (v1.PodList.Items pods) as [|pod rest].
  { split.
    - intros [= <- <-]. split; [done|]. right. repeat split. by left.
    - intros [-> [?|(_ & -> & _)]]; done. }
  case_decide as Hns.
  - split.
    + intros [= <- <-]. split; [done|]. right. repeat split. right. by exists pod, rest.
    + intros [-> [?|(_ & -> & _)]]; done.
  - split; [done|].
    intros [-> [?|(_ & -> & [?|(pod' & rest' & [= <- <-] & Hpod)])]]; done.
Qed.

End K8sUtils.


(** * The properties at the sample answers *)

(** Two bound PVCs resolve to their volumes, in order (the example of the
    specification). *)
Lemma GetVolumeNamesFromLabelSelector_in_order_sample :
  exists volNames : list string,
    GetVolumeNamesFromLabelSelector
      (Samples.listing [Samples.pvcA; Samples.pvcB]) Samples.volumeOf Samples.sprint
      "ns1" Samples.labels = (volNames, None)
    /\ length volNames = 2
    /\ forall (i : nat) (pvc : v1.PersistentVolumeClaim.t),
         [Samples.pvcA; Samples.pvcB] !! i = Some pvc ->
         volNames !! i = Some (Samples.volumeOf pvc).1.
Proof.
  apply (GetVolumeNamesFromLabelSelector_in_order
           (Samples.listing [Samples.pvcA; Samples.pvcB]) Samples.volumeOf
           Samples.sprint "ns1" Samples.labels
           {| v1.PersistentVolumeClaimList.Items := [Samples.pvcA; Samples.pvcB] |}).
  - reflexivity.
  - simpl. discriminate.
  - simpl. repeat constructor; discriminate.
  - simpl. repeat constructor.
Defined.

(** A pending PVC between two bound ones fails the resolution. *)
Lemma GetPVCsForGroupSnapshot_pending_sample :
  exists (before after : list v1.PersistentVolumeClaim.t)
         (pvc : v1.PersistentVolumeClaim.t) (failure : option error),
    [Samples.pvcA; Samples.pvcPending; Samples.pvcB] = before ++ pvc :: after
    /\ Forall (fun p =>
                 v1.PersistentVolumeClaimStatus.Phase (v1.PersistentVolumeClaim.Status p)
                 <> v1.ClaimPending) before
    /\ v1.PersistentVolumeClaimStatus.Phase (v1.PersistentVolumeClaim.Status pvc)
       = v1.ClaimPending
    /\ failure
       = Errorf ("PVC: [" +:+ v1.PersistentVolumeClaim.Namespace pvc +:+ "] "
                 +:+ v1.PersistentVolumeClaim.Name pvc +:+ " is still in "
                 +:+ v1.PersistentVolumeClaimStatus.Phase
                      (v1.PersistentVolumeClaim.Status pvc)
                 +:+ " phase. Group snapshot will trigger after all PVCs are bound")
    /\ GetPVCsForGroupSnapshot
         (Samples.listing [Samples.pvcA; Samples.pvcPending; Samples.pvcB])
         Samples.sprint "ns1" Samples.labels = ([], failure)
    /\ GetVolumeNamesFromLabelSelector
         (Samples.listing [Samples.pvcA; Samples.pvcPending; Samples.pvcB])
         Samples.volumeOf Samples.sprint "ns1" Samples.labels = ([], failure).
Proof.
  apply (GetPVCsForGroupSnapshot_pending
           (Samples.listing [Samples.pvcA; Samples.pvcPending; Samples.pvcB])
           Samples.volumeOf Samples.sprint "ns1" Samples.labels
           {| v1.PersistentVolumeClaimList.Items :=
                [Samples.pvcA; Samples.pvcPending; Samples.pvcB] |}).
  - reflexivity.
  - simpl. apply Exists_cons_tl, Exists_cons_hd. reflexivity.
Defined.

(** A selector that matches nothing. *)
Lemma GetPVCsForGroupSnapshot_no_candidates_sample :
  GetPVCsForGroupSnapshot (Samples.listing []) Samples.sprint "ns1" Samples.labels
  = ([], Errorf ("found no PVCs for group snapshot with given label selectors: "
                 +:+ Samples.sprint Samples.labels))
  /\ GetVolumeNamesFromLabelSelector (Samples.listing []) Samples.volumeOf
       Samples.sprint "ns1" Samples.labels
     = ([], Errorf ("found no PVCs for group snapshot with given label selectors: "
                    +:+ Samples.sprint Samples.labels)).
Proof.
  apply (GetPVCsForGroupSnapshot_no_candidates
           (Samples.listing []) Samples.volumeOf Samples.sprint "ns1" Samples.labels
           {| v1.PersistentVolumeClaimList.Items := [] |}).
  - reflexivity.
  - reflexivity.
Defined.

(** C5. A PVC in phase Lost is not pending: [GetPVCsForGroupSnapshot]
    returns it, with no error, although it is not bound. *)
Lemma GetPVCsForGroupSnapshot_returns_lost :
  GetPVCsForGroupSnapshot (Samples.listing [Samples.pvcLost]) Samples.sprint
    "ns1" Samples.labels = ([Samples.pvcLost], None)
  /\ v1.PersistentVolumeClaimStatus.Phase
       (v1.PersistentVolumeClaim.Status Samples.pvcLost) = v1.ClaimLost
  /\ v1.PersistentVolumeClaimStatus.Phase
       (v1.PersistentVolumeClaim.Status Samples.pvcLost) <> v1.ClaimBound.
Proof. repeat split. discriminate. Qed.

(** C1 as stated fails: the status holds an Established condition with
    status True, and the poll fails with the name conflict of the
    NamesAccepted condition that comes before it. *)
Lemma ValidateCRD_condition_conflict_first :
  (exists c, c ∈ Samples.conflictFirst /\ apiextensionsv1beta1.isEstablished c)
  /\ ValidateCRD_condition Samples.notFoundReason (Samples.crd Samples.conflictFirst, None)
     = (false, Errorf "name conflict: ListKindConflict")
  /\ ValidateCRD_condition Samples.notFoundReason (Samples.crd Samples.conflictFirst, None)
     <> (true, None).
Proof.
  split; [|split].
  - exists (Samples.condition "Established" "True" "InitialNamesAccepted").
    split; [|by split].
    apply list_elem_of_further, list_elem_of_here.
  - reflexivity.
  - discriminate.
Qed.

(** An established CRD, polled once. *)
Lemma ValidateCRD_condition_first_decides_sample :
  ValidateCRD_condition Samples.notFoundReason (Samples.crd Samples.established, None)
  = (true, None)
  /\ ValidateCRDV1_condition Samples.notFoundReason
       (Samples.crdV1 Samples.installingV1, None) = (false, None)
  /\ ValidateCRD_condition Samples.notFoundReason
       (Samples.crd Samples.established, Some (StatusError "NotFound" "not found"))
     = (false, None)
  /\ ValidateCRDV1_condition Samples.notFoundReason
       (Samples.crdV1 Samples.installingV1, Some (StatusError "Forbidden" "denied"))
     = (false, Some (StatusError "Forbidden" "denied")).
Proof.
  pose proof (ValidateCRD_condition_first_decides Samples.notFoundReason
                (Samples.crd Samples.established)
                (Samples.crdV1 Samples.installingV1) None) as (_ & _ & Hscan).
  destruct (Hscan eq_refl) as (Hfirst & _ & _ & HpendingV1).
  pose proof (ValidateCRD_condition_first_decides Samples.notFoundReason
                (Samples.crd Samples.established)
                (Samples.crdV1 Samples.installingV1)
                (Some (StatusError "NotFound" "not found"))) as (Hnotfound & _ & _).
  pose proof (ValidateCRD_condition_first_decides Samples.notFoundReason
                (Samples.crd Samples.established)
                (Samples.crdV1 Samples.installingV1)
                (Some (StatusError "Forbidden" "denied"))) as (_ & Herror & _).
  split; [|split; [|split]].
  - apply (Hfirst [Samples.condition "NamesAccepted" "True" "NoConflicts"]
                  (Samples.condition "Established" "True" "InitialNamesAccepted") []).
    + reflexivity.
    + constructor; [|constructor]. split; intros [Htype Hstatus]; discriminate.
    + split; reflexivity.
  - apply HpendingV1. simpl. constructor; [|constructor].
    split; intros [Htype Hstatus]; discriminate.
  - apply Hnotfound. reflexivity.
  - apply (Herror (StatusError "Forbidden" "denied")); reflexivity.
Defined.

(** The two waiters on the same conditions. *)
Lemma ValidateCRD_condition_V1_agree_sample :
  ValidateCRD_condition Samples.notFoundReason (Samples.crd Samples.established, None)
  = ValidateCRDV1_condition Samples.notFoundReason
      (Samples.crdV1 Samples.establishedV1, None).
Proof.
  apply (ValidateCRD_condition_V1_agree Samples.notFoundReason
           (Samples.crd Samples.established) (Samples.crdV1 Samples.establishedV1) None).
  reflexivity.
Defined.



(** C9 as stated fails: fetched successfully, a deployment whose
    pull-secret slice is not nil but empty, and one with no container,
    make the function panic, so that it returns no registry and no secret
    name, where the claim has it return the empty secret name. *)
Lemma GetImageRegistryFromDeployment_returns_nothing :
  (Samples.deployed
     (Samples.deployment ["docker.io/openstorage/stork:2.6"] (Some []))
     "stork" "kube-system"
   = (Samples.deployment ["docker.io/openstorage/stork:2.6"] (Some []), None)
   /\ GetImageRegistryFromDeployment
        (Samples.deployed
           (Samples.deployment ["docker.io/openstorage/stork:2.6"] (Some [])))
        "stork" "kube-system" = panic "index out of range"
   /\ forall (registry secret : string) (err : option error),
        GetImageRegistryFromDeployment
          (Samples.deployed
             (Samples.deployment ["docker.io/openstorage/stork:2.6"] (Some [])))
          "stork" "kube-system" <> ret (registry, secret, err))
  /\ (GetImageRegistryFromDeployment
        (Samples.deployed (Samples.deployment [] None)) "stork" "kube-system"
      = panic "index out of range"
      /\ forall (registry secret : string) (err : option error),
           GetImageRegistryFromDeployment
             (Samples.deployed (Samples.deployment [] None)) "stork" "kube-system"
           <> ret (registry, secret, err)).
Proof.
  split; [split; [reflexivity|split; [reflexivity|]]|split; [reflexivity|]];
    intros registry secret err; discriminate.
Qed.

(** An image with a registry and no pull secret; an image with no registry
    and a pull secret. *)
Lemma GetImageRegistryFromDeployment_result_sample :
  GetImageRegistryFromDeployment
    (Samples.deployed (Samples.deployment ["docker.io/openstorage/stork:2.6"] None))
    "stork" "kube-system" = ret ("docker.io", "", None)
  /\ GetImageRegistryFromDeployment
       (Samples.deployed
          (Samples.deployment ["openstorage/stork:2.6"] (Some ["regcred"; "other"])))
       "stork" "kube-system" = ret ("", "regcred", None).
Proof.
  split.
  - destruct (GetImageRegistryFromDeployment_result
                (Samples.deployed
                   (Samples.deployment ["docker.io/openstorage/stork:2.6"] None))
                "stork" "kube-system"
                (Samples.deployment ["docker.io/openstorage/stork:2.6"] None)
                eq_refl)
      as (container & registry & secret & Hcontainer & -> & Hthree & _ & Hnil & _).
    + simpl. discriminate.
    + simpl. discriminate.
    + simpl in Hcontainer. injection Hcontainer as <-.
      specialize (Hthree eq_refl). injection Hthree as <-.
      rewrite (Hnil eq_refl). reflexivity.
  - destruct (GetImageRegistryFromDeployment_result
                (Samples.deployed
                   (Samples.deployment ["openstorage/stork:2.6"]
                      (Some ["regcred"; "other"])))
                "stork" "kube-system"
                (Samples.deployment ["openstorage/stork:2.6"]
                   (Some ["regcred"; "other"]))
                eq_refl)
      as (container & registry & secret & Hcontainer & -> & _ & Htwo & _ & Hfirst).
    + simpl. discriminate.
    + simpl. discriminate.
    + simpl in Hcontainer. injection Hcontainer as <-.
      rewrite (Htwo (or_intror eq_refl)).
      rewrite (Hfirst {| v1.LocalObjectReference.Name := "regcred" |}
                      [ {| v1.LocalObjectReference.Name := "other" |} ] eq_refl).
      reflexivity.
Defined.

(** No container, and an empty slice of pull secrets: both panic. *)
Lemma GetImageRegistryFromDeployment_out_of_range_sample :
  GetImageRegistryFromDeployment
    (Samples.deployed (Samples.deployment [] None)) "stork" "kube-system"
  = panic "index out of range"
  /\ GetImageRegistryFromDeployment
       (Samples.deployed (Samples.deployment ["openstorage/stork:2.6"] (Some [])))
       "stork" "kube-system"
     = panic "index out of range".
Proof.
  split.
  - apply (GetImageRegistryFromDeployment_out_of_range
             (Samples.deployed (Samples.deployment [] None)) "stork" "kube-system"
             (Samples.deployment [] None) eq_refl).
    left. reflexivity.
  - apply (GetImageRegistryFromDeployment_out_of_range
             (Samples.deployed
                (Samples.deployment ["openstorage/stork:2.6"] (Some [])))
             "stork" "kube-system"
             (Samples.deployment ["openstorage/stork:2.6"] (Some [])) eq_refl).
    right. reflexivity.
Defined.

(** * The further properties at the sample answers *)

Lemma GetPVCsForGroupSnapshot_success_iff_sample :
  GetPVCsForGroupSnapshot (Samples.listing [Samples.pvcLost; Samples.pvcA])
    Samples.sprint "ns1" Samples.labels
  = ([Samples.pvcLost; Samples.pvcA], None).
Proof.
  apply (GetPVCsForGroupSnapshot_success_iff
           (Samples.listing [Samples.pvcLost; Samples.pvcA]) Samples.sprint
           "ns1" Samples.labels [Samples.pvcLost; Samples.pvcA]).
  exists {| v1.PersistentVolumeClaimList.Items := [Samples.pvcLost; Samples.pvcA] |}.
  split; [reflexivity|]. split; [reflexivity|]. split; [discriminate|].
  repeat constructor; discriminate.
Defined.

Lemma GetVolumeNamesFromLabelSelector_all_or_nothing_sample :
  (GetVolumeNamesFromLabelSelector
     (Samples.listing [Samples.pvcA; Samples.pvcB]) (Samples.volumeUnless "pvc-b")
     Samples.sprint "ns1" Samples.labels).1 = [].
Proof.
  destruct (GetVolumeNamesFromLabelSelector_all_or_nothing
              (Samples.listing [Samples.pvcA; Samples.pvcB])
              (Samples.volumeUnless "pvc-b") Samples.sprint "ns1" Samples.labels)
    as [_ [_ Hnothing]].
  apply Hnothing. discriminate.
Defined.

Lemma GetVolumeNamesFromLabelSelector_first_failure_sample :
  GetVolumeNamesFromLabelSelector
    (Samples.listing [Samples.pvcA; Samples.pvcB; Samples.pvcLost])
    (Samples.volumeUnless "pvc-b") Samples.sprint "ns1" Samples.labels
  = ([], Some (StatusError "NotFound" "volume not found")).
Proof.
  apply (GetVolumeNamesFromLabelSelector_first_failure
           (Samples.listing [Samples.pvcA; Samples.pvcB; Samples.pvcLost])
           (Samples.volumeUnless "pvc-b") Samples.sprint "ns1" Samples.labels
           [Samples.pvcA] [Samples.pvcLost] Samples.pvcB).
  - reflexivity.
  - repeat constructor.
  - reflexivity.
Defined.

Lemma GetVolumeNamesFromLabelSelector_success_sample :
  exists pvcList : v1.PersistentVolumeClaimList.t,
    Samples.listing [Samples.pvcA; Samples.pvcB] "ns1" Samples.labels = (pvcList, None)
    /\ v1.PersistentVolumeClaimList.Items pvcList <> []
    /\ Forall (fun pvc =>
                 v1.PersistentVolumeClaimStatus.Phase
                   (v1.PersistentVolumeClaim.Status pvc) <> v1.ClaimPending)
              (v1.PersistentVolumeClaimList.Items pvcList)
    /\ Forall (fun pvc => (Samples.volumeOf pvc).2 = None)
              (v1.PersistentVolumeClaimList.Items pvcList)
    /\ ["vol-a"; "vol-b"]
       = map (fun pvc => (Samples.volumeOf pvc).1)
             (v1.PersistentVolumeClaimList.Items pvcList).
Proof.
  apply (GetVolumeNamesFromLabelSelector_success
           (Samples.listing [Samples.pvcA; Samples.pvcB]) Samples.volumeOf
           Samples.sprint "ns1" Samples.labels ["vol-a"; "vol-b"]).
  reflexivity.
Defined.

Lemma GetVolumeNamesFromLabelSelector_errors_sample :
  exists pvc,
    pvc ∈ [Samples.pvcA; Samples.pvcPending]
    /\ v1.PersistentVolumeClaimStatus.Phase (v1.PersistentVolumeClaim.Status pvc)
       = v1.ClaimPending.
Proof.
  destruct (GetVolumeNamesFromLabelSelector_errors
              (Samples.listing [Samples.pvcA; Samples.pvcPending]) Samples.volumeOf
              Samples.sprint "ns1" Samples.labels []
              (errorString
                 "PVC: [ns1] pvc-c is still in Pending phase. Group snapshot will trigger after all PVCs are bound")
              eq_refl)
    as [Hlisting|[(_ & Hempty & _)|[(_ & pvc & Hin & Hpending & _)|(_ & pvc & _ & Hlookup)]]].
  - discriminate Hlisting.
  - discriminate Hempty.
  - exists pvc. split; [exact Hin|exact Hpending].
  - discriminate Hlookup.
Defined.

Lemma ValidateCRD_condition_success_sample :
  exists before cond after,
    Samples.established = before ++ cond :: after
    /\ Forall (fun c => ~ apiextensionsv1beta1.isEstablished c
                        /\ ~ apiextensionsv1beta1.isNameConflict c) before
    /\ apiextensionsv1beta1.isEstablished cond.
Proof.
  destruct (ValidateCRD_condition_success Samples.notFoundReason
              (Samples.crd Samples.established)
              (Samples.crdV1 Samples.establishedV1) None) as [Hsuccess _].
  destruct (Hsuccess None eq_refl) as (_ & _ & Hfirst).
  exact Hfirst.
Defined.

Lemma ValidateCRD_condition_errors_sample :
  exists before cond after,
    Samples.conflictFirst = before ++ cond :: after
    /\ Forall (fun c => ~ apiextensionsv1beta1.isEstablished c
                        /\ ~ apiextensionsv1beta1.isNameConflict c) before
    /\ apiextensionsv1beta1.isNameConflict cond
    /\ errorString "name conflict: ListKindConflict"
       = errorString ("name conflict: "
           +:+ apiextensionsv1beta1.CustomResourceDefinitionCondition.Reason cond).
Proof.
  destruct (ValidateCRD_condition_errors Samples.notFoundReason
              (Samples.crd Samples.conflictFirst)
              (Samples.crdV1 Samples.establishedV1) None) as [Herrors _].
  destruct (Herrors false (errorString "name conflict: ListKindConflict") eq_refl)
    as (_ & [Hfetch|(_ & Hconflict)]).
  - discriminate Hfetch.
  - exact Hconflict.
Defined.

(** Not found twice, then a name conflict: three polls; pending once, then
    forbidden: two polls. *)
Lemma ValidateCRD_first_poll_not_pending_sample :
  (ValidateCRD Samples.notFoundReason Samples.late "rules"
   = Errorf "name conflict: ListKindConflict"
   /\ (wait.PollImmediateCalls retryInterval crdTimeout
         (fun k => ValidateCRD_condition Samples.notFoundReason
                     (clientset.ApiextensionsV1beta1_Get Samples.late k "rules"))).2 = 3)
  /\ (ValidateCRDV1 Samples.notFoundReason Samples.late "rules"
      = Some (StatusError "Forbidden" "denied")
      /\ (wait.PollImmediateCalls retryInterval crdTimeout
            (fun k => ValidateCRDV1_condition Samples.notFoundReason
                        (clientset.ApiextensionsV1_Get Samples.late k "rules"))).2 = 2).
Proof.
  destruct (ValidateCRD_first_poll_not_pending Samples.notFoundReason
              Samples.late "rules") as [Hbeta Hv1].
  split.
  - apply (Hbeta 2 false (Errorf "name conflict: ListKindConflict")).
    + repeat constructor.
    + intros [|[|j]] Hj; [reflexivity|reflexivity|].
      exfalso. apply (Nat.nlt_0_r j). apply Nat.succ_lt_mono, Nat.succ_lt_mono, Hj.
    + reflexivity.
    + right. discriminate.
  - apply (Hv1 1 false (Some (StatusError "Forbidden" "denied"))).
    + repeat constructor.
    + intros [|j] Hj; [reflexivity|].
      exfalso. apply (Nat.nlt_0_r j). apply Nat.succ_lt_mono, Hj.
    + reflexivity.
    + right. discriminate.
Defined.

Lemma ValidateCRD_never_found_sample :
  ValidateCRD Samples.notFoundReason Samples.absent "rules" = Some wait.ErrWaitTimeout
  /\ ValidateCRDV1 Samples.notFoundReason Samples.absent "rules"
     = Some wait.ErrWaitTimeout.
Proof.
  destruct (ValidateCRD_never_found Samples.notFoundReason Samples.absent "rules")
    as [Hbeta Hv1].
  split; [apply Hbeta|apply Hv1]; intros k; reflexivity.
Defined.

(** A descriptor whose CRD exists already. *)
Lemma CreateCRD_well_formed_sample :
  exists crd : apiextensionsv1.CustomResourceDefinition.t,
    [crd] = [] ++ [crd]
    /\ Some (StatusError "AlreadyExists" "rules.stork.libopenstorage.org")
       = Some (StatusError "AlreadyExists"
                 (metav1.ObjectMeta.Name
                    (apiextensionsv1.CustomResourceDefinition.ObjectMeta crd))).
Proof.
  destruct (CreateCRD_well_formed
              (fun crd => Some (StatusError "AlreadyExists"
                                  (metav1.ObjectMeta.Name
                                     (apiextensionsv1.CustomResourceDefinition.ObjectMeta crd))))
              Samples.resource []
              [buildCRD Samples.resource]
              (Some (StatusError "AlreadyExists" "rules.stork.libopenstorage.org"))
              eq_refl)
    as (crd & Hlog & Herr & _).
  exists crd. simpl in Hlog. injection Hlog as <-.
  split; [reflexivity|exact Herr].
Defined.

(** A cluster without the deployment. *)
Lemma GetImageRegistryFromDeployment_error_sample :
  GetImageRegistryFromDeployment
    (fun _ _ => (Samples.deployment [] None, Some (StatusError "NotFound" "no stork")))
    "stork" "kube-system"
  = ret ("", "", Some (StatusError "NotFound" "no stork")).
Proof.
  apply (GetImageRegistryFromDeployment_error
           (fun _ _ => (Samples.deployment [] None,
                        Some (StatusError "NotFound" "no stork")))
           "stork" "kube-system" "" "" (StatusError "NotFound" "no stork")).
  split; [reflexivity|]. split; reflexivity.
Defined.

(** Three fields give the registry; four give none. *)
Lemma GetImageRegistryFromDeployment_fields_sample :
  (exists secret : string,
     GetImageRegistryFromDeployment
       (Samples.deployed (Samples.deployment ["docker.io/openstorage/stork:2.6"] None))
       "stork" "kube-system" = ret ("docker.io", secret, None))
  /\ (exists secret : string,
        GetImageRegistryFromDeployment
          (Samples.deployed
             (Samples.deployment ["quay.io/org/team/stork:2.6"] (Some ["regcred"])))
          "stork" "kube-system" = ret ("", secret, None)).
Proof.
  split.
  - apply (GetImageRegistryFromDeployment_fields
             (Samples.deployed
                (Samples.deployment ["docker.io/openstorage/stork:2.6"] None))
             "stork" "kube-system"
             (Samples.deployment ["docker.io/openstorage/stork:2.6"] None)
             {| v1.Container.Name := "stork";
                v1.Container.Image := "docker.io/openstorage/stork:2.6" |} []
             ["docker.io"; "openstorage"; "stork:2.6"]).
    + reflexivity.
    + reflexivity.
    + discriminate.
    + reflexivity.
    + discriminate.
    + repeat constructor.
  - apply (GetImageRegistryFromDeployment_fields
             (Samples.deployed
                (Samples.deployment ["quay.io/org/team/stork:2.6"] (Some ["regcred"])))
             "stork" "kube-system"
             (Samples.deployment ["quay.io/org/team/stork:2.6"] (Some ["regcred"]))
             {| v1.Container.Name := "stork";
                v1.Container.Image := "quay.io/org/team/stork:2.6" |} []
             ["quay.io"; "org"; "team"; "stork:2.6"]).
    + reflexivity.
    + reflexivity.
    + discriminate.
    + reflexivity.
    + discriminate.
    + repeat constructor.
Defined.

(** A second container and a second pull secret change nothing. *)
Lemma GetImageRegistryFromDeployment_first_only_sample :
  GetImageRegistryFromDeployment
    (Samples.deployed
       (Samples.deployment ["docker.io/openstorage/stork:2.6"; "busybox"]
          (Some ["regcred"; "other"])))
    "stork" "kube-system"
  = GetImageRegistryFromDeployment
      (Samples.deployed
         (Samples.deployment ["docker.io/openstorage/stork:2.6"] (Some ["regcred"])))
      "stork" "kube-system".
Proof.
  pose proof (GetImageRegistryFromDeployment_first_only
                (fun name _ =>
                   if String.eqb name "stork"
                   then (Samples.deployment
                           ["docker.io/openstorage/stork:2.6"; "busybox"]
                           (Some ["regcred"; "other"]), None)
                   else (Samples.deployment
                           ["docker.io/openstorage/stork:2.6"] (Some ["regcred"]), None))
                "stork" "kube-system" "stork-copy" "kube-system"
                _ _ eq_refl eq_refl eq_refl eq_refl) as Hsame.
  exact Hsame.
Defined.

(** The first pod decides, in both directions. *)
Lemma GetStorkPodNamespace_success_sample :
  GetStorkPodNamespace
    (Samples.podListing [Samples.pod "kube-system" "stork-1"; Samples.pod "" "stork-2"])
  = ret ("kube-system", None).
Proof.
  apply (GetStorkPodNamespace_success
           (Samples.podListing
              [Samples.pod "kube-system" "stork-1"; Samples.pod "" "stork-2"])
           "kube-system").
  exists {| v1.PodList.Items :=
              [Samples.pod "kube-system" "stork-1"; Samples.pod "" "stork-2"] |},
         (Samples.pod "kube-system" "stork-1"), [Samples.pod "" "stork-2"].
  split; [reflexivity|]. split; [reflexivity|]. split; [reflexivity|discriminate].
Defined.

Lemma GetStorkPodNamespace_failure_sample :
  GetStorkPodNamespace
    (Samples.podListing [Samples.pod "" "stork-2"; Samples.pod "kube-system" "stork-1"])
  = ret ("", Errorf "error: stork namespace is empty").
Proof.
  apply (GetStorkPodNamespace_failure
           (Samples.podListing
              [Samples.pod "" "stork-2"; Samples.pod "kube-system" "stork-1"])
           "" (errorString "error: stork namespace is empty")).
  split; [reflexivity|]. right.
  split; [reflexivity|]. split; [reflexivity|]. right.
  exists (Samples.pod "" "stork-2"), [Samples.pod "kube-system" "stork-1"].
  split; reflexivity.
Defined.

(** The registry of a three-field reference, read back. *)
Lemma GetImageRegistryFromDeployment_registry_form_sample :
  exists (container : v1.Container.t) (repository image : string),
    [ {| v1.Container.Name := "stork";
         v1.Container.Image := "docker.io/openstorage/stork:2.6" |} ] !! 0
    = Some container
    /\ v1.Container.Image container = "docker.io" +:+ "/" +:+ repository +:+ "/" +:+ image
    /\ Contains "docker.io" "/" = false
    /\ Contains repository "/" = false
    /\ Contains image "/" = false.
Proof.
  apply (GetImageRegistryFromDeployment_registry_form
           (Samples.deployed
              (Samples.deployment ["docker.io/openstorage/stork:2.6"] None))
           "stork" "kube-system" "docker.io" "" None).
  - reflexivity.
  - discriminate.
Defined.

(** Both endpoints report the CRD established at every fetch. *)
Lemma ValidateCRD_V1_agree_sample :
  ValidateCRD Samples.notFoundReason
    (Samples.steady Samples.established Samples.establishedV1) "rules"
  = ValidateCRDV1 Samples.notFoundReason
      (Samples.steady Samples.established Samples.establishedV1) "rules".
Proof.
  apply (ValidateCRD_V1_agree Samples.notFoundReason
           (Samples.steady Samples.established Samples.establishedV1) "rules").
  intros k. split; reflexivity.
Defined.
